(** * codigo_yolo.py: the batch detection pipeline, embedded and verified

    The script lists the images of an S3 bucket, runs a person detector on
    each one, uploads the annotated picture, writes one DynamoDB item per
    picture and removes its local scratch files.  The embedding below follows
    the script function by function.  Side effects are threaded through a
    state-and-exception monad over a [World]; everything the outside
    services decide (what a listing returns, whether a call fails and with
    which exception, how many people the detector sees, what time it is) is
    read from an environment [Env], which sees the whole world, including the
    trace of all earlier calls.

    Strings are Stdlib strings (sequences of bytes); [lower] acts on the
    letters A-Z, which is all that the extension test can observe. *)

From Stdlib Require Import Ascii String ZArith Lia.
From stdpp Require Import gmap strings list.

Local Open Scope string_scope.
Local Open Scope Z_scope.

(** ** Python strings *)

Module PyStr.

(** [str.lower], on ASCII letters. *)
Definition lower_ascii (c : ascii) : ascii :=
  let n := nat_of_ascii c in
  if ((65 <=? n)%nat && (n <=? 90)%nat)%bool then ascii_of_nat (n + 32) else c.

Fixpoint lower (s : string) : string :=
  match s with
  | EmptyString => EmptyString
  | String c s' => String (lower_ascii c) (lower s')
  end.

(** [s.endswith(suf)] for one suffix. *)
Definition endswith1 (s suf : string) : bool :=
  let n := String.length s in
  let m := String.length suf in
  ((m <=? n)%nat && String.eqb (substring (n - m) m s) suf)%bool.

(** [s.endswith(tuple)]: some suffix of the tuple matches. *)
Definition endswith (s : string) (sufs : list string) : bool :=
  existsb (endswith1 s) sufs.

(** [s.rfind(sep)] for a one-character separator: the highest index at which
    [sep] occurs, -1 when it does not occur. *)
Fixpoint rfind_from (sep : ascii) (s : string) (idx last : Z) : Z :=
  match s with
  | EmptyString => last
  | String c s' =>
      rfind_from sep s' (idx + 1) (if Ascii.eqb c sep then idx else last)
  end.

Definition rfind (sep : ascii) (s : string) : Z := rfind_from sep s 0 (-1).

(** [s[i:]] for [0 <= i]. *)
Fixpoint drop_chars (n : nat) (s : string) : string :=
  match n, s with
  | O, _ => s
  | S n', String _ s' => drop_chars n' s'
  | S _, EmptyString => EmptyString
  end.

Definition slice_from (i : Z) (s : string) : string := drop_chars (Z.to_nat i) s.

(** [os.path.basename] (posixpath): [i = p.rfind('/') + 1; return p[i:]]. *)
Definition basename (p : string) : string :=
  let i := rfind "/"%char p + 1 in
  slice_from i p.

(** Does the separator occur in the string. *)
Fixpoint has_sep (sep : ascii) (s : string) : bool :=
  match s with
  | EmptyString => false
  | String c s' => (Ascii.eqb c sep || has_sep sep s')%bool
  end.

End PyStr.

Import PyStr.

(** ** Exceptions

    What the calls of the script raise are subclasses of [Exception].  Two
    classes matter to its handlers: botocore's [ClientError], and every other
    subclass of [Exception] (botocore's connection errors, [cv2.error],
    [FileNotFoundError], [decimal.InvalidOperation], ...).  Each carries the
    text that [str(e)] prints.  Interrupts of the process ([KeyboardInterrupt],
    [SystemExit]) are not exceptions of this kind and are not modelled. *)

Inductive exn : Type :=
  | ClientError (msg : string)
  | OtherException (msg : string).

Definition str_exn (e : exn) : string :=
  match e with
  | ClientError m => m
  | OtherException m => m
  end.

(** [except ClientError] and [except Exception] as predicates on the raised
    exception. *)
Definition is_ClientError (e : exn) : bool :=
  match e with
  | ClientError _ => true
  | OtherException _ => false
  end.

Definition is_Exception (e : exn) : bool := true.

Inductive result (A : Type) : Type :=
  | Ok (a : A)
  | Raise (e : exn).

Arguments Ok {A} a.
Arguments Raise {A} e.

(** ** Configuration: the module-level constants read from [os.environ] *)

Record Config : Type := {
  BUCKET : string;
  INPUT_PREFIXO : string;
  OUTPUT_PREFIXO : string;
  NOME_MODELO : string;
  NOME_TABELA : string;
  AWS_REGION : string
}.

(** [os.environ.get(name, dflt)]. *)
Definition environ_get (environ : gmap string string) (name dflt : string) : string :=
  default dflt (environ !! name).

Definition config_of_environ (environ : gmap string string) : Config := {|
  BUCKET := environ_get environ "BUCKET_NAME" "fotos-esp32";
  INPUT_PREFIXO := environ_get environ "INPUT_IMAGE_PREFIXO" EmptyString;
  OUTPUT_PREFIXO := environ_get environ "OUTPUT_IMAGE_PREFIXO" "resultados/";
  NOME_MODELO := environ_get environ "NOME_MODELO" "yolov8n.pt";
  NOME_TABELA := environ_get environ "DYNAMO_TABLE" "yolo-resultados";
  AWS_REGION := environ_get environ "AWS_DEFAULT_REGION" "sa-east-1"
|}.

(** ** Data exchanged with the services *)

(** One entry of a listing page, and a page of [list_objects_v2]; a page of
    an empty listing has no ["Contents"] at all. *)
Record Obj : Type := { Key : string }.
Record Page : Type := { Contents : option (list Obj) }.

(** The response of [head_object]. *)
Record Head : Type := { Metadata : option (gmap string string) }.

(** A [Decimal] built from a numeral; it is kept as the numeral it was parsed
    from. *)
Inductive Decimal : Type := Dec (numeral : string).

(** The dictionary handed to [put_item]. *)
Record Item : Type := {
  imagem : string;
  outputKey : string;
  qtd_pessoas : Z;
  bateria : option Decimal;
  hora_imagem : option string;
  hora_execucao : string
}.

(** [item["bateria"] = d] and [item["hora_imagem"] = v]. *)
Definition set_bateria (d : Decimal) (item : Item) : Item :=
  {| imagem := imagem item; outputKey := outputKey item;
     qtd_pessoas := qtd_pessoas item; bateria := Some d;
     hora_imagem := hora_imagem item; hora_execucao := hora_execucao item |}.

Definition set_hora_imagem (v : string) (item : Item) : Item :=
  {| imagem := imagem item; outputKey := outputKey item;
     qtd_pessoas := qtd_pessoas item; bateria := bateria item;
     hora_imagem := Some v; hora_execucao := hora_execucao item |}.

(** ** The world and its trace *)

(** Every print and every call to a service or to the file system, with its
    outcome, in the order in which they happened. *)
Inductive Event : Type :=
  | EvPrint (line : string)
  | EvPaginate (bucket prefix : string) (r : result (list Page))
  | EvDownload (bucket key local_path : string) (err : option exn)
  | EvDetect (modelo local_path : string) (r : result nat)
  | EvImwrite (local_path : string) (r : result bool)
  | EvUpload (local_path bucket key : string) (err : option exn)
  | EvHead (bucket key : string) (r : result Head)
  | EvPutItem (tabela : string) (item : Item) (err : option exn)
  | EvRemove (path : string) (err : option exn).

Record World : Type := {
  w_fs : gset string;                 (* files of the working directory *)
  w_s3 : gset (string * string);      (* (bucket, key) of the objects uploaded *)
  w_table : list Item;                (* items accepted by put_item, oldest first:
                                         the log of the writes, one entry per
                                         accepted call *)
  w_trace : list Event                (* oldest first *)
}.

Definition log (ev : Event) (w : World) : World :=
  {| w_fs := w_fs w; w_s3 := w_s3 w; w_table := w_table w;
     w_trace := w_trace w ++ [ev] |}.

Definition set_fs (fs : gset string) (w : World) : World :=
  {| w_fs := fs; w_s3 := w_s3 w; w_table := w_table w; w_trace := w_trace w |}.

Definition set_s3 (s : gset (string * string)) (w : World) : World :=
  {| w_fs := w_fs w; w_s3 := s; w_table := w_table w; w_trace := w_trace w |}.

Definition set_table (t : list Item) (w : World) : World :=
  {| w_fs := w_fs w; w_s3 := w_s3 w; w_table := t; w_trace := w_trace w |}.

(** What the outside decides.  Each field sees the current world. *)
Record Env : Type := {
  env_paginate : World -> string -> string -> result (list Page);
  env_download_file : World -> string -> string -> string -> option exn;
  env_detect : World -> string -> string -> result nat;
  env_detect_files : World -> string -> string -> gset string;
  env_imwrite : World -> string -> result bool;
  env_upload_file : World -> string -> string -> string -> option exn;
  env_head_object : World -> string -> string -> result Head;
  env_put_item : World -> string -> Item -> option exn;
  env_remove : World -> string -> option exn;
  env_now : World -> string;
  env_decimal_ok : string -> bool
}.

(** ** The state-and-exception monad *)

Definition M (A : Type) : Type := World -> World * result A.

Definition ret {A} (a : A) : M A := fun w => (w, Ok a).

Definition raise {A} (e : exn) : M A := fun w => (w, Raise e).

Definition bind {A B} (m : M A) (k : A -> M B) : M B :=
  fun w =>
    match m w with
    | (w', Ok a) => k a w'
    | (w', Raise e) => (w', Raise e)
    end.

(** [try: m  except C as e: h e] where [catches] says whether the raised
    exception is an instance of [C]. *)
Definition try_except {A} (m : M A) (catches : exn -> bool) (h : exn -> M A) : M A :=
  fun w =>
    match m w with
    | (w', Ok a) => (w', Ok a)
    | (w', Raise e) => if catches e then h e w' else (w', Raise e)
    end.

Declare Scope py_scope.
Delimit Scope py_scope with py.
Notation "x <- m ;; k" := (bind m (fun x => k))
  (at level 100, m at next level, right associativity) : py_scope.
Notation "m ;; k" := (bind m (fun _ => k))
  (at level 100, right associativity) : py_scope.
Local Open Scope py_scope.

(** [for x in xs: body x]. *)
Fixpoint for_each {A} (xs : list A) (body : A -> M unit) : M unit :=
  match xs with
  | [] => ret tt
  | x :: xs' => body x ;; for_each xs' body
  end.

Definition print (line : string) : M unit := fun w => (log (EvPrint line) w, Ok tt).

(** [d.get(k)] used as a condition: present and not the empty string. *)
Definition truthy (o : option string) : bool :=
  match o with
  | Some s => negb (String.eqb s EmptyString)
  | None => false
  end.

(** [d[k]]. *)
Definition getitem (d : gmap string string) (k : string) : M string :=
  match d !! k with
  | Some v => ret v
  | None => raise (OtherException ("KeyError: " ++ k))
  end.

(** ** The script *)

Section Pipeline.

Variable cfg : Config.
Variable env : Env.

(** *** Calls to the services and to the file system *)

(** [s3.get_paginator("list_objects_v2").paginate(Bucket=, Prefix=)], all of
    its pages; a failure on any page is a failure of the iteration. *)
Definition paginate (bucket prefix : string) : M (list Page) :=
  fun w =>
    let r := env_paginate env w bucket prefix in
    (log (EvPaginate bucket prefix r) w, r).

(** [s3.download_file]: on success the local file exists. *)
Definition download_file (bucket key local_path : string) : M unit :=
  fun w =>
    match env_download_file env w bucket key local_path with
    | Some e => (log (EvDownload bucket key local_path (Some e)) w, Raise e)
    | None =>
        (log (EvDownload bucket key local_path None)
             (set_fs ({[local_path]} ∪ w_fs w) w), Ok tt)
    end.

(** [s3.upload_file]: needs the local file; on success the object exists. *)
Definition upload_file (local_path bucket key : string) : M unit :=
  fun w =>
    let err :=
      if decide (local_path ∈ w_fs w)
      then env_upload_file env w local_path bucket key
      else Some (OtherException ("FileNotFoundError: " ++ local_path)) in
    match err with
    | Some e => (log (EvUpload local_path bucket key (Some e)) w, Raise e)
    | None =>
        (log (EvUpload local_path bucket key None)
             (set_s3 ({[(bucket, key)]} ∪ w_s3 w) w), Ok tt)
    end.

(** [s3.head_object]. *)
Definition head_object (bucket key : string) : M Head :=
  fun w =>
    let r := env_head_object env w bucket key in
    (log (EvHead bucket key r) w, r).

(** [tabela.put_item(Item=item)]: an accepted item is added to the log of the
    writes.  (The table keeps one item per key; [w_table] keeps every accepted
    write.) *)
Definition put_item (item : Item) : M unit :=
  fun w =>
    match env_put_item env w (NOME_TABELA cfg) item with
    | Some e => (log (EvPutItem (NOME_TABELA cfg) item (Some e)) w, Raise e)
    | None =>
        (log (EvPutItem (NOME_TABELA cfg) item None)
             (set_table (w_table w ++ [item]) w), Ok tt)
    end.

(** Lines 126-133: load the model, read and rotate the picture, predict with
    [conf=0.15, classes=[0]], count the boxes and plot them.  The detector is
    opaque: it fails or gives the number of boxes.  Whatever the outcome, it
    may leave files of its own in the working directory ([YOLO(NOME_MODELO)]
    fetches the weights there when they are missing). *)
Definition detecta (local_input : string) : M nat :=
  fun w =>
    let r := env_detect env w (NOME_MODELO cfg) local_input in
    let files := env_detect_files env w (NOME_MODELO cfg) local_input in
    (log (EvDetect (NOME_MODELO cfg) local_input r) (set_fs (files ∪ w_fs w) w), r).

(** [cv2.imwrite]: raises, or tells whether it wrote the file; the script
    drops the returned flag. *)
Definition imwrite (local_path : string) : M bool :=
  fun w =>
    let r := env_imwrite env w local_path in
    match r with
    | Ok true => (log (EvImwrite local_path r) (set_fs ({[local_path]} ∪ w_fs w) w), r)
    | _ => (log (EvImwrite local_path r) w, r)
    end.

(** [os.remove]: fails on a missing file. *)
Definition os_remove (path : string) : M unit :=
  fun w =>
    let err :=
      if decide (path ∈ w_fs w)
      then env_remove env w path
      else Some (OtherException ("FileNotFoundError: " ++ path)) in
    match err with
    | Some e => (log (EvRemove path (Some e)) w, Raise e)
    | None => (log (EvRemove path None) (set_fs (w_fs w ∖ {[path]}) w), Ok tt)
    end.

(** [datetime.now(ZoneInfo("America/Sao_Paulo")).isoformat()]. *)
Definition now_isoformat : M string := fun w => (w, Ok (env_now env w)).

(** [Decimal(str(v))] for a string [v]. *)
Definition Decimal_of_str (v : string) : M Decimal :=
  if env_decimal_ok env v then ret (Dec v)
  else raise (OtherException "InvalidOperation").

(** *** lista_imagens *)

Definition extensoes : list string := [".jpg"; ".png"].

(** The inner loop over the objects of one page. *)
Definition lista_pagina (lista_img : list string) (pag : Page) : list string :=
  fold_left
    (fun acc obj =>
       let key := Key obj in
       if endswith (lower key) extensoes then (acc ++ [key])%list else acc)
    (default [] (Contents pag)) lista_img.

Definition lista_imagens (bucket prefix : string) : M (list string) :=
  pags <- paginate bucket prefix ;;
  ret (fold_left lista_pagina pags []).

(** *** download_s3, upload_s3 *)

Definition download_s3 (bucket key local_path : string) : M unit :=
  download_file bucket key local_path.

Definition upload_s3 (local_path bucket key : string) : M unit :=
  upload_file local_path bucket key.

(** *** pega_metadados *)

Definition pega_metadados (bucket key : string) : M (gmap string string) :=
  try_except
    (head <- head_object bucket key ;;
     let metadados := default ∅ (Metadata head) in
     ret metadados)
    is_ClientError
    (fun e =>
       print ("Falha ao obter metadados de " ++ key ++ ": " ++ str_exn e) ;;
       ret ∅).

(** *** salva_dynamo *)

(** Lines 86-97: the item, built with both optional fields empty and then
    filled from the metadata. *)
Definition monta_item (imagem_key output_key : string) (n_pessoas : nat)
    (metadados : gmap string string) (hora_execucao : string) : M Item :=
  let item := {| imagem := imagem_key; outputKey := output_key;
                 qtd_pessoas := Z.of_nat n_pessoas;
                 bateria := None; hora_imagem := None;
                 hora_execucao := hora_execucao |} in
  item <- (if truthy (metadados !! "battery-level")
           then v <- getitem metadados "battery-level" ;;
                d <- Decimal_of_str v ;;
                ret (set_bateria d item)
           else ret item) ;;
  if truthy (metadados !! "device-timestamp")
  then v <- getitem metadados "device-timestamp" ;;
       ret (set_hora_imagem v item)
  else ret item.

Definition salva_dynamo (imagem_key output_key : string) (n_pessoas : nat)
    (metadados : gmap string string) (hora_execucao : string) : M unit :=
  item <- monta_item imagem_key output_key n_pessoas metadados hora_execucao ;;
  try_except
    (put_item item ;;
     print ("Gravado no DynamoDB: " ++ imagem_key))
    is_ClientError
    (fun e =>
       print ("Falha ao gravar no DynamoDB: " ++ str_exn e) ;;
       raise e).

(** *** processa_imagem *)

Definition local_input_of (input_key : string) : string := basename input_key.

Definition local_output_of (input_key : string) : string :=
  "out_" ++ local_input_of input_key.

Definition output_key_of (input_key : string) : string :=
  OUTPUT_PREFIXO cfg ++ basename (local_output_of input_key).

Definition processa_imagem (input_key : string) : M unit :=
  let local_input := local_input_of input_key in
  let local_output := local_output_of input_key in
  print ("Baixando s3://" ++ BUCKET cfg ++ "/" ++ input_key) ;;
  download_s3 (BUCKET cfg) input_key local_input ;;
  qtd_pessoas <- detecta local_input ;;
  imwrite local_output ;;
  let output_key := output_key_of input_key in
  print ("Enviando " ++ local_output ++ " → s3://" ++ BUCKET cfg ++ "/" ++ output_key) ;;
  upload_s3 local_output (BUCKET cfg) output_key ;;
  metadados <- pega_metadados (BUCKET cfg) input_key ;;
  hora_execucao <- now_isoformat ;;
  salva_dynamo input_key output_key qtd_pessoas metadados hora_execucao ;;
  os_remove local_input ;;
  os_remove local_output.

(** *** main *)

(** The body of the [for] loop: one item, with its handler. *)
Definition processa_item (img : string) : M unit :=
  try_except (processa_imagem img) is_Exception
    (fun e => print ("Erro ao processar " ++ img ++ ": " ++ str_exn e)).

Definition main : M unit :=
  print ("Listando imagens em s3://" ++ BUCKET cfg ++ "/" ++ INPUT_PREFIXO cfg) ;;
  imagens <- lista_imagens (BUCKET cfg) (INPUT_PREFIXO cfg) ;;
  match imagens with
  | [] => print "Nenhuma imagem encontrada no bucket."
  | _ => for_each imagens processa_item
  end.

(** The [if __name__ == "__main__"] block. *)
Definition script : M unit :=
  try_except main is_Exception
    (fun e =>
       if is_ClientError e
       then print ("Erro S3: " ++ str_exn e) ;; raise e
       else print ("Erro: " ++ str_exn e) ;; raise e).

End Pipeline.

(** ** Reasoning about computations

    [wp m Q w]: running [m] from [w] ends in a world and a result that
    satisfy [Q].  One rule per construct of the monad and per service call;
    a rule for a call covers every answer the environment may give. *)

Definition wp {A} (m : M A) (Q : World -> result A -> Prop) (w : World) : Prop :=
  Q (fst (m w)) (snd (m w)).

Definition after_bind {A B} (k : A -> M B) (Q : World -> result B -> Prop)
    (w : World) (r : result A) : Prop :=
  match r with
  | Ok a => wp (k a) Q w
  | Raise e => Q w (Raise e)
  end.

Definition after_try {A} (catches : exn -> bool) (h : exn -> M A)
    (Q : World -> result A -> Prop) (w : World) (r : result A) : Prop :=
  match r with
  | Ok a => Q w (Ok a)
  | Raise e => if catches e then wp (h e) Q w else Q w (Raise e)
  end.

(** ** Observations on traces *)

(** What a run from [w] to [w'] added to the trace. *)
Definition events_since (w w' : World) : list Event :=
  drop (length (w_trace w)) (w_trace w').

Definition is_put_item (ev : Event) : bool :=
  match ev with
  | EvPutItem _ _ _ => true
  | _ => false
  end.

(** The number of calls to [put_item], whatever their outcome. *)
Definition put_count (evs : list Event) : nat :=
  length (List.filter is_put_item evs).

(** A failed download, detection, write of the annotated picture or upload:
    the failures that come before the persistence step. *)
Definition antes_de_gravar (ev : Event) : bool :=
  match ev with
  | EvDownload _ _ _ (Some _) | EvDetect _ _ (Raise _)
  | EvImwrite _ (Raise _) | EvUpload _ _ _ (Some _) => true
  | _ => false
  end.

(** The keys handed to [download_file], in order.  The download is the first
    call of [processa_imagem], so this lists the items that were started. *)
Definition chave_baixada (ev : Event) : option string :=
  match ev with
  | EvDownload _ key _ _ => Some key
  | _ => None
  end.

Definition chaves_baixadas (evs : list Event) : list string :=
  omap chave_baixada evs.

(** The output key carried by an upload or by a record write. *)
Definition chave_de_saida (ev : Event) : option string :=
  match ev with
  | EvUpload _ _ key _ => Some key
  | EvPutItem _ item _ => Some (outputKey item)
  | _ => None
  end.

(** The local path touched by a call, for the calls that touch one. *)
Definition caminho_local (ev : Event) : option string :=
  match ev with
  | EvDownload _ _ p _ | EvDetect _ p _ | EvImwrite p _
  | EvUpload p _ _ _ | EvRemove p _ => Some p
  | _ => None
  end.

(** The keys of a listing, page after page. *)
Definition chaves_listadas (pags : list Page) : list string :=
  concat (map (fun pag => map Key (default [] (Contents pag))) pags).

(** The test of [lista_imagens] on one key. *)
Definition aceita (key : string) : bool := endswith (lower key) extensoes.

(** A call names the bucket, the table or the model that the environment
    variables of [environ] select. *)
Definition usa_configuracao (environ : gmap string string) (ev : Event) : Prop :=
  match ev with
  | EvDownload b _ _ _ | EvUpload _ b _ _ | EvHead b _ _ =>
      b = environ_get environ "BUCKET_NAME" "fotos-esp32"
  | EvPutItem t _ _ => t = environ_get environ "DYNAMO_TABLE" "yolo-resultados"
  | EvDetect m _ _ => m = environ_get environ "NOME_MODELO" "yolov8n.pt"
  | _ => True
  end.

(** The item of a successful [put_item]. *)
Definition item_gravado (ev : Event) : option Item :=
  match ev with
  | EvPutItem _ item None => Some item
  | _ => None
  end.

(** The object of a successful upload. *)
Definition objeto_enviado (ev : Event) : option (string * string) :=
  match ev with
  | EvUpload _ bucket key None => Some (bucket, key)
  | _ => None
  end.

(** The steps of [processa_imagem] that call a service or the file system. *)
Inductive Passo : Type :=
  | PDownload | PDetect | PImwrite | PUpload | PHead | PPutItem | PRemove.

Definition passo (ev : Event) : option Passo :=
  match ev with
  | EvPrint _ | EvPaginate _ _ _ => None
  | EvDownload _ _ _ _ => Some PDownload
  | EvDetect _ _ _ => Some PDetect
  | EvImwrite _ _ => Some PImwrite
  | EvUpload _ _ _ _ => Some PUpload
  | EvHead _ _ _ => Some PHead
  | EvPutItem _ _ _ => Some PPutItem
  | EvRemove _ _ => Some PRemove
  end.

(** The steps of a complete run, in the order of the source. *)
Definition passos_completos : list Passo :=
  [PDownload; PDetect; PImwrite; PUpload; PHead; PPutItem; PRemove; PRemove].

(** ** Concrete worlds used by the examples *)

Module Cenario.

Definition cfg : Config := config_of_environ ∅.

Definition w0 : World :=
  {| w_fs := ∅; w_s3 := ∅; w_table := []; w_trace := [] |}.

Definition pagina (keys : list string) : Page :=
  {| Contents := Some (map (fun k => {| Key := k |}) keys) |}.

(** An environment in which every transfer and removal succeeds and the
    detector leaves no file of its own; the listing, the detector,
    [head_object] and [put_item] are given. *)
Definition ambiente (pags : list Page) (detect : string -> result nat)
    (head : result Head) (put : option exn) : Env := {|
  env_paginate := fun _ _ _ => Ok pags;
  env_download_file := fun _ _ _ _ => None;
  env_detect := fun _ _ local_path => detect local_path;
  env_detect_files := fun _ _ _ => ∅;
  env_imwrite := fun _ _ => Ok true;
  env_upload_file := fun _ _ _ _ => None;
  env_head_object := fun _ _ _ => head;
  env_put_item := fun _ _ _ => put;
  env_remove := fun _ _ => None;
  env_now := fun _ => "2024-01-01T12:00:00-03:00";
  env_decimal_ok := fun _ => true
|}.

Definition duas_pessoas (local_path : string) : result nat := Ok 2%nat.

(** The detector fails on the picture [ruim.jpg]. *)
Definition falha_em_ruim (local_path : string) : result nat :=
  if String.eqb local_path "ruim.jpg"
  then Raise (OtherException "cv2.error")
  else Ok 2%nat.

Definition sem_metadados : result Head := Ok {| Metadata := Some ∅ |}.

Definition calmo : Env :=
  ambiente [pagina ["a.jpg"; "b.txt"; "c.PNG"]] duas_pessoas sem_metadados None.

Definition detector_falha : Env :=
  ambiente [pagina ["a.jpg"; "ruim.jpg"; "c.png"]] falha_em_ruim sem_metadados None.

Definition tabela_falha : Env :=
  ambiente [pagina ["a.jpg"]] duas_pessoas sem_metadados
    (Some (ClientError "ProvisionedThroughputExceededException")).

Definition head_404 : Env :=
  ambiente [pagina ["a.jpg"]] duas_pessoas (Raise (ClientError "404")) None.

Definition sem_rede : Env :=
  ambiente [pagina ["a.jpg"]] duas_pessoas
    (Raise (OtherException "EndpointConnectionError")) None.

(** Two keys with the same base name. *)
Definition mesmos_nomes : Env :=
  ambiente [pagina ["a/x.jpg"; "b/x.jpg"]] duas_pessoas sem_metadados None.

(** The picture photos/001.jpg, with the metadata its device attached. *)
Definition com_metadados : Env :=
  ambiente [pagina ["photos/001.jpg"]] duas_pessoas
    (Ok {| Metadata := Some {[ "battery-level" := "87.5";
                               "device-timestamp" := "2024-01-01T10:00:00" ]} |})
    None.

(** The listing is refused. *)
Definition listagem_falha : Env := {|
  env_paginate := fun _ _ _ => Raise (ClientError "AccessDenied");
  env_download_file := env_download_file calmo;
  env_detect := env_detect calmo;
  env_detect_files := env_detect_files calmo;
  env_imwrite := env_imwrite calmo;
  env_upload_file := env_upload_file calmo;
  env_head_object := env_head_object calmo;
  env_put_item := env_put_item calmo;
  env_remove := env_remove calmo;
  env_now := env_now calmo;
  env_decimal_ok := env_decimal_ok calmo
|}.

(** The object cannot be downloaded. *)
Definition download_falha : Env := {|
  env_paginate := env_paginate calmo;
  env_download_file := fun _ _ _ _ => Some (ClientError "404");
  env_detect := env_detect calmo;
  env_detect_files := env_detect_files calmo;
  env_imwrite := env_imwrite calmo;
  env_upload_file := env_upload_file calmo;
  env_head_object := env_head_object calmo;
  env_put_item := env_put_item calmo;
  env_remove := env_remove calmo;
  env_now := env_now calmo;
  env_decimal_ok := env_decimal_ok calmo
|}.

(** No numeral is a valid decimal. *)
Definition decimal_ruim : Env := {|
  env_paginate := env_paginate calmo;
  env_download_file := env_download_file calmo;
  env_detect := env_detect calmo;
  env_detect_files := env_detect_files calmo;
  env_imwrite := env_imwrite calmo;
  env_upload_file := env_upload_file calmo;
  env_head_object := env_head_object calmo;
  env_put_item := env_put_item calmo;
  env_remove := env_remove calmo;
  env_now := env_now calmo;
  env_decimal_ok := fun _ => false
|}.

(** A listing without pictures: a text, a folder marker, an empty page. *)
Definition sem_imagens : Env :=
  ambiente [pagina ["b.txt"; "fotos/"]; {| Contents := None |}]
    duas_pessoas sem_metadados None.

End Cenario.

(** * Properties *)

(** ** Strings: what [basename] returns *)

Section BasenameFacts.

Variable sep : ascii.

Lemma has_sep_app (a b : string) :
  has_sep sep (a ++ b) = (has_sep sep a || has_sep sep b)%bool.
Proof.
  induction a as [|c a IH]; simpl; [done|].
  rewrite IH. by rewrite orb_assoc.
Qed.

Lemma rfind_from_no_sep (s : string) (idx last : Z) :
  has_sep sep s = false -> rfind_from sep s idx last = last.
Proof.
  revert idx last. induction s as [|c s IH]; intros idx last Hs; simpl in *; [done|].
  apply orb_false_iff in Hs as [Hc Hs]. rewrite Hc. by apply IH.
Qed.

Lemma rfind_from_last (a b : string) (idx last : Z) :
  has_sep sep b = false ->
  rfind_from sep (a ++ String sep b) idx last = idx + Z.of_nat (String.length a).
Proof.
  intros Hb. revert idx last. induction a as [|c a IH]; intros idx last; simpl.
  - rewrite Ascii.eqb_refl. rewrite rfind_from_no_sep by done. lia.
  - rewrite IH. lia.
Qed.

Lemma drop_chars_app (a b : string) (c : ascii) :
  drop_chars (S (String.length a)) (a ++ String c b) = b.
Proof. induction a as [|c' a IH]; simpl; [done|]. exact IH. Qed.

Lemma split_last_sep (s : string) :
  has_sep sep s = true ->
  exists a b, s = a ++ String sep b /\ has_sep sep b = false.
Proof.
  induction s as [|c s IH]; simpl; [done|]. intros H.
  destruct (has_sep sep s) eqn:Hs.
  - destruct IH as (a & b & -> & Hb); [done|].
    exists (String c a), b. by split.
  - rewrite orb_false_r in H. apply Ascii.eqb_eq in H as ->.
    exists EmptyString, s. by split.
Qed.

End BasenameFacts.

Lemma basename_no_sep (p : string) :
  has_sep "/" p = false -> basename p = p.
Proof.
  intros H. unfold basename, rfind. by rewrite rfind_from_no_sep.
Qed.

Lemma basename_split (a b : string) :
  has_sep "/" b = false -> basename (a ++ String "/" b) = b.
Proof.
  intros H. unfold basename, rfind, slice_from. rewrite rfind_from_last by done.
  replace (Z.to_nat (0 + Z.of_nat (String.length a) + 1)) with (S (String.length a)) by lia.
  apply drop_chars_app.
Qed.

Lemma basename_has_no_sep (p : string) : has_sep "/" (basename p) = false.
Proof.
  destruct (has_sep "/" p) eqn:Hp.
  - destruct (split_last_sep _ _ Hp) as (a & b & -> & Hb). by rewrite basename_split.
  - by rewrite basename_no_sep.
Qed.

Lemma basename_local_output (input_key : string) :
  basename (local_output_of input_key) = "out_" ++ basename input_key.
Proof.
  unfold local_output_of, local_input_of. apply basename_no_sep.
  rewrite has_sep_app, basename_has_no_sep. reflexivity.
Qed.

Example basename_photos : basename "photos/001.jpg" = "001.jpg".
Proof. reflexivity. Qed.

Example basename_nested : basename "a/b/c.PNG" = "c.PNG".
Proof. reflexivity. Qed.

Example basename_flat : basename "x.jpg" = "x.jpg".
Proof. reflexivity. Qed.

Example basename_dir : basename "a/" = EmptyString.
Proof. reflexivity. Qed.

Local Open Scope list_scope.

(** ** Reasoning about computations: the rules *)

Lemma wp_ret {A} (a : A) Q w : Q w (Ok a) -> wp (ret a) Q w.
Proof. done. Qed.

Lemma wp_raise {A} (e : exn) (Q : World -> result A -> Prop) w :
  Q w (Raise e) -> wp (raise e) Q w.
Proof. done. Qed.

Lemma wp_bind {A B} (m : M A) (k : A -> M B) Q w :
  wp m (after_bind k Q) w -> wp (bind m k) Q w.
Proof.
  unfold wp, after_bind, bind. destruct (m w) as [w1 [a|e]]; simpl; [|done].
  unfold wp. done.
Qed.

Lemma wp_try_except {A} (m : M A) catches h Q w :
  wp m (after_try catches h Q) w -> wp (try_except m catches h) Q w.
Proof.
  unfold wp, after_try, try_except. destruct (m w) as [w1 [a|e]]; simpl; [done|].
  destruct (catches e); done.
Qed.

Lemma wp_mono {A} (m : M A) (Q Q' : World -> result A -> Prop) w :
  wp m Q w -> (forall w' r, Q w' r -> Q' w' r) -> wp m Q' w.
Proof. unfold wp. auto. Qed.

Lemma wp_print line Q w : Q (log (EvPrint line) w) (Ok tt) -> wp (print line) Q w.
Proof. done. Qed.

Section Rules.

Variable cfg : Config.
Variable env : Env.

Lemma wp_paginate bucket prefix Q w :
  (forall r, Q (log (EvPaginate bucket prefix r) w) r) ->
  wp (paginate env bucket prefix) Q w.
Proof. intros H. apply H. Qed.

Lemma wp_download_file bucket key local_path Q w :
  (forall e, Q (log (EvDownload bucket key local_path (Some e)) w) (Raise e)) ->
  Q (log (EvDownload bucket key local_path None)
         (set_fs ({[local_path]} ∪ w_fs w) w)) (Ok tt) ->
  wp (download_file env bucket key local_path) Q w.
Proof.
  intros Hf Hs. unfold wp, download_file.
  destruct (env_download_file env w bucket key local_path); simpl; auto.
Qed.

Lemma wp_upload_file local_path bucket key Q w :
  (forall e, Q (log (EvUpload local_path bucket key (Some e)) w) (Raise e)) ->
  (local_path ∈ w_fs w ->
   Q (log (EvUpload local_path bucket key None)
          (set_s3 ({[(bucket, key)]} ∪ w_s3 w) w)) (Ok tt)) ->
  wp (upload_file env local_path bucket key) Q w.
Proof.
  intros Hf Hs. unfold wp, upload_file.
  destruct (decide (local_path ∈ w_fs w)); simpl; [|by auto].
  destruct (env_upload_file env w local_path bucket key); simpl; auto.
Qed.

Lemma wp_head_object bucket key Q w :
  (forall r, Q (log (EvHead bucket key r) w) r) ->
  wp (head_object env bucket key) Q w.
Proof. intros H. apply H. Qed.

Lemma wp_put_item item Q w :
  (forall e, Q (log (EvPutItem (NOME_TABELA cfg) item (Some e)) w) (Raise e)) ->
  Q (log (EvPutItem (NOME_TABELA cfg) item None)
         (set_table (w_table w ++ [item]) w)) (Ok tt) ->
  wp (put_item cfg env item) Q w.
Proof.
  intros Hf Hs. unfold wp, put_item.
  destruct (env_put_item env w (NOME_TABELA cfg) item); simpl; auto.
Qed.

Lemma wp_detecta local_input Q w :
  (forall r files,
     Q (log (EvDetect (NOME_MODELO cfg) local_input r) (set_fs (files ∪ w_fs w) w)) r) ->
  wp (detecta cfg env local_input) Q w.
Proof. intros H. apply H. Qed.

Lemma wp_imwrite local_path Q w :
  (forall e, Q (log (EvImwrite local_path (Raise e)) w) (Raise e)) ->
  Q (log (EvImwrite local_path (Ok false)) w) (Ok false) ->
  Q (log (EvImwrite local_path (Ok true))
         (set_fs ({[local_path]} ∪ w_fs w) w)) (Ok true) ->
  wp (imwrite env local_path) Q w.
Proof.
  intros Hf Hn Hs. unfold wp, imwrite.
  destruct (env_imwrite env w local_path) as [[|]|e]; simpl; auto.
Qed.

Lemma wp_os_remove path Q w :
  (forall e, Q (log (EvRemove path (Some e)) w) (Raise e)) ->
  (path ∈ w_fs w ->
   Q (log (EvRemove path None) (set_fs (w_fs w ∖ {[path]}) w)) (Ok tt)) ->
  wp (os_remove env path) Q w.
Proof.
  intros Hf Hs. unfold wp, os_remove.
  destruct (decide (path ∈ w_fs w)); simpl; [|by auto].
  destruct (env_remove env w path); simpl; auto.
Qed.

Lemma wp_now_isoformat Q w :
  Q w (Ok (env_now env w)) -> wp (now_isoformat env) Q w.
Proof. done. Qed.

End Rules.

(** Symbolic execution with the rules above. *)
Ltac wp_prim :=
  lazymatch goal with
  | |- wp (bind _ _) _ _ => apply wp_bind
  | |- wp (ret _) _ _ => apply wp_ret
  | |- wp (raise _) _ _ => apply wp_raise
  | |- wp (try_except _ _ _) _ _ => apply wp_try_except
  | |- wp (print _) _ _ => apply wp_print
  | |- wp (paginate _ _ _) _ _ => apply wp_paginate; intros ?
  | |- wp (download_file _ _ _ _) _ _ => apply wp_download_file; [intros ?|]
  | |- wp (upload_file _ _ _ _) _ _ => apply wp_upload_file; [intros ?|intros ?]
  | |- wp (head_object _ _ _) _ _ => apply wp_head_object; intros ?
  | |- wp (put_item _ _ _) _ _ => apply wp_put_item; [intros ?|]
  | |- wp (detecta _ _ _) _ _ => apply wp_detecta; intros ? ?
  | |- wp (imwrite _ _) _ _ => apply wp_imwrite; [intros ?| |]
  | |- wp (os_remove _ _) _ _ => apply wp_os_remove; [intros ?|intros ?]
  | |- wp (now_isoformat _) _ _ => apply wp_now_isoformat
  | |- after_bind _ _ _ ?r => first [is_var r; destruct r | idtac]; cbn [after_bind]
  | |- after_try _ _ _ _ ?r =>
      first [is_var r; destruct r as [?|[?|?]] | idtac];
      cbn [after_try is_ClientError is_Exception]
  | |- if is_ClientError ?e then _ else _ =>
      is_var e; destruct e; cbn [is_ClientError]
  | |- wp (match ?x with _ => _ end) _ _ => destruct x
  end.

Ltac wp_run := repeat (cbv beta zeta iota; wp_prim).

Ltac world_simpl :=
  cbn [w_trace w_fs w_s3 w_table log set_fs set_s3 set_table fst snd] in *.

(** ** The components, one rule each *)

Section Components.

Variable cfg : Config.
Variable env : Env.

(** [pega_metadados]: a [ClientError] of [head_object] is printed and
    replaced by the empty dictionary; any other exception passes through. *)
Lemma wp_pega_metadados bucket key Q w :
  (forall h, Q (log (EvHead bucket key (Ok h)) w) (Ok (default ∅ (Metadata h)))) ->
  (forall m,
     Q (log (EvPrint ("Falha ao obter metadados de " ++ key ++ ": " ++ m)%string)
            (log (EvHead bucket key (Raise (ClientError m))) w)) (Ok ∅)) ->
  (forall m,
     Q (log (EvHead bucket key (Raise (OtherException m))) w)
       (Raise (OtherException m))) ->
  wp (pega_metadados env bucket key) Q w.
Proof.
  intros Hok Hcli Hoth. unfold pega_metadados. wp_run; auto.
Qed.

(** [monta_item] leaves the world alone; it fails, or gives an item for the
    picture and the output key it was called with. *)
Lemma wp_monta_item imagem_key output_key n_pessoas metadados hora Q w :
  (forall e, Q w (Raise e)) ->
  (forall item,
     imagem item = imagem_key -> outputKey item = output_key -> Q w (Ok item)) ->
  wp (monta_item env imagem_key output_key n_pessoas metadados hora) Q w.
Proof.
  intros Hf Hs. unfold monta_item, getitem, Decimal_of_str.
  wp_run; auto.
Qed.

(** [salva_dynamo]: the item is built; one [put_item] is attempted; a
    [ClientError] is printed and raised again, any other exception passes
    through. *)
Lemma wp_salva_dynamo imagem_key output_key n_pessoas metadados hora Q w :
  (forall e, Q w (Raise e)) ->
  (forall item,
     imagem item = imagem_key -> outputKey item = output_key ->
     Q (log (EvPrint ("Gravado no DynamoDB: " ++ imagem_key)%string)
            (log (EvPutItem (NOME_TABELA cfg) item None)
                 (set_table (w_table w ++ [item]) w))) (Ok tt)) ->
  (forall item m,
     imagem item = imagem_key -> outputKey item = output_key ->
     Q (log (EvPrint ("Falha ao gravar no DynamoDB: " ++ m)%string)
            (log (EvPutItem (NOME_TABELA cfg) item (Some (ClientError m))) w))
       (Raise (ClientError m))) ->
  (forall item m,
     imagem item = imagem_key -> outputKey item = output_key ->
     Q (log (EvPutItem (NOME_TABELA cfg) item (Some (OtherException m))) w)
       (Raise (OtherException m))) ->
  wp (salva_dynamo cfg env imagem_key output_key n_pessoas metadados hora) Q w.
Proof.
  intros Hb Hok Hcli Hoth. unfold salva_dynamo.
  apply wp_bind, wp_monta_item; cbn [after_bind]; [done|].
  intros item Hi Ho. wp_run; auto.
Qed.

End Components.

(** ** Strings: what [endswith] tests *)

Lemma length_append (a b : string) :
  String.length (a ++ b)%string = (String.length a + String.length b)%nat.
Proof. induction a as [|c a IH]; simpl; [done|]. by rewrite IH. Qed.

Lemma substring_whole (s : string) : substring 0 (String.length s) s = s.
Proof. induction s as [|c s IH]; simpl; [done|]. by rewrite IH. Qed.

Lemma substring_suffix (pre suf : string) :
  substring (String.length pre) (String.length suf) (pre ++ suf)%string = suf.
Proof.
  induction pre as [|c pre IH]; simpl; [apply substring_whole|exact IH].
Qed.

Lemma substring_tail (n : nat) (s : string) :
  (n <= String.length s)%nat ->
  exists pre, s = (pre ++ substring n (String.length s - n) s)%string.
Proof.
  revert s. induction n as [|n IH]; intros s Hn.
  - exists EmptyString. rewrite Nat.sub_0_r, substring_whole. done.
  - destruct s as [|c s]; simpl in Hn; [lia|].
    destruct (IH s) as [pre Hpre]; [lia|].
    exists (String c pre).
    change (String c s = String c (pre ++ substring n (String.length s - n) s)%string).
    by rewrite <- Hpre.
Qed.

Lemma endswith1_spec (s suf : string) :
  endswith1 s suf = true <-> exists pre, s = (pre ++ suf)%string.
Proof.
  unfold endswith1. rewrite andb_true_iff, Nat.leb_le, String.eqb_eq. split.
  - intros [Hle Hsub].
    destruct (substring_tail (String.length s - String.length suf) s) as [pre Hpre]; [lia|].
    exists pre.
    replace (String.length s - (String.length s - String.length suf))%nat
      with (String.length suf) in Hpre by lia.
    by rewrite Hsub in Hpre.
  - intros [pre ->]. rewrite length_append. split; [lia|].
    replace (String.length pre + String.length suf - String.length suf)%nat
      with (String.length pre) by lia.
    apply substring_suffix.
Qed.

Lemma aceita_spec (key : string) :
  aceita key = true <->
  exists stem, lower key = (stem ++ ".jpg")%string \/ lower key = (stem ++ ".png")%string.
Proof.
  unfold aceita, endswith, extensoes. simpl. rewrite orb_false_r, orb_true_iff.
  rewrite !endswith1_spec. split.
  - intros [[p H]|[p H]]; exists p; auto.
  - intros [p [H|H]]; [left|right]; by exists p.
Qed.

(** ** lista_imagens *)

Lemma lista_pagina_filter (acc : list string) (pag : Page) :
  lista_pagina acc pag = acc ++ List.filter aceita (map Key (default [] (Contents pag))).
Proof.
  unfold lista_pagina. generalize (default [] (Contents pag)) as objs.
  intros objs. revert acc.
  induction objs as [|obj objs IH]; intros acc; cbn [fold_left List.filter map].
  - by rewrite app_nil_r.
  - rewrite IH. change (endswith (lower (Key obj)) extensoes) with (aceita (Key obj)).
    destruct (aceita (Key obj)); [|done].
    by rewrite <- app_assoc.
Qed.

Lemma lista_paginas_filter (acc : list string) (pags : list Page) :
  fold_left lista_pagina pags acc = acc ++ List.filter aceita (chaves_listadas pags).
Proof.
  revert acc. induction pags as [|pag pags IH]; intros acc; simpl.
  - by rewrite app_nil_r.
  - rewrite IH, lista_pagina_filter. unfold chaves_listadas. simpl.
    rewrite List.filter_app. by rewrite <- app_assoc.
Qed.

(** C7. Whenever the listing succeeds, [lista_imagens] returns the listed
    keys that pass the extension test, in listing order and with nothing
    added; a key passes exactly when its lowercased form ends in .jpg or
    .png. *)
Theorem lista_imagens_filters (env : Env) (bucket prefix : string) (w : World)
    (pags : list Page) :
  env_paginate env w bucket prefix = Ok pags ->
  snd (lista_imagens env bucket prefix w) = Ok (List.filter aceita (chaves_listadas pags)) /\
  (forall key, aceita key = true <->
     exists stem, lower key = (stem ++ ".jpg")%string \/ lower key = (stem ++ ".png")%string).
Proof.
  intros Hpag. split; [|apply aceita_spec].
  unfold lista_imagens, bind, paginate, ret. rewrite Hpag. simpl.
  by rewrite lista_paginas_filter.
Qed.

(** The listing a.jpg, b.txt, c.PNG yields a.jpg and c.PNG. *)
Lemma lista_imagens_filters_witness :
  snd (lista_imagens Cenario.calmo "fotos-esp32" EmptyString Cenario.w0) = Ok ["a.jpg"; "c.PNG"].
Proof.
  apply (lista_imagens_filters Cenario.calmo "fotos-esp32" EmptyString Cenario.w0
           [Cenario.pagina ["a.jpg"; "b.txt"; "c.PNG"]]).
  reflexivity.
Defined.

(** ** salva_dynamo and the optional metadata *)

Lemma events_since_app (w w' : World) (evs : list Event) :
  w_trace w' = w_trace w ++ evs -> events_since w w' = evs.
Proof. intros H. unfold events_since. rewrite H. by rewrite drop_app_length. Qed.

(** Bring the trace of a world built by [log] and the setters into the form
    [w_trace w ++ [e1; ...; en]]. *)
Ltac trace_norm :=
  world_simpl; rewrite <- ?app_assoc; cbn [app].

Ltac since_norm :=
  erewrite events_since_app by (trace_norm; reflexivity).

Ltac wp_comp :=
  lazymatch goal with
  | |- wp (pega_metadados _ _ _) _ _ => apply wp_pega_metadados; intros
  | |- wp (salva_dynamo _ _ _ _ _ _ _) _ _ => apply wp_salva_dynamo; intros
  end.

Ltac wp_exec := repeat (cbv beta zeta iota; first [wp_prim | wp_comp]).

Section SalvaDynamo.

Variable cfg : Config.
Variable env : Env.
Variables (imagem_key output_key : string) (n_pessoas : nat).
Variables (metadados : gmap string string) (hora : string).

Let monta := monta_item env imagem_key output_key n_pessoas metadados hora.
Let salva := salva_dynamo cfg env imagem_key output_key n_pessoas metadados hora.

Lemma monta_item_world (w : World) : fst (monta w) = w.
Proof.
  change (wp monta (fun w' _ => w' = w) w). apply wp_monta_item; done.
Qed.

(** [salva_dynamo], one level down: the item, then the guarded write. *)
Lemma salva_dynamo_unfold (w : World) :
  salva w =
  match snd (monta w) with
  | Raise e => (w, Raise e)
  | Ok item =>
      match env_put_item env w (NOME_TABELA cfg) item with
      | None =>
          (log (EvPrint ("Gravado no DynamoDB: " ++ imagem_key)%string)
             (log (EvPutItem (NOME_TABELA cfg) item None)
                (set_table (w_table w ++ [item]) w)), Ok tt)
      | Some (ClientError m) =>
          (log (EvPrint ("Falha ao gravar no DynamoDB: " ++ m)%string)
             (log (EvPutItem (NOME_TABELA cfg) item (Some (ClientError m))) w),
           Raise (ClientError m))
      | Some (OtherException m) =>
          (log (EvPutItem (NOME_TABELA cfg) item (Some (OtherException m))) w,
           Raise (OtherException m))
      end
  end.
Proof.
  pose proof (monta_item_world w) as Hw.
  unfold salva, salva_dynamo, bind. fold monta. destruct (monta w) as [w1 [item|e]].
  - simpl in Hw. subst w1. cbn [snd].
    unfold try_except, bind, put_item, print.
    destruct (env_put_item env w (NOME_TABELA cfg) item) as [[m|m]|]; reflexivity.
  - simpl in Hw. by subst w1.
Qed.

(** The item when neither value is usable. *)
Lemma monta_item_sem_valores (w : World) :
  truthy (metadados !! "battery-level") = false ->
  truthy (metadados !! "device-timestamp") = false ->
  monta w = (w, Ok {| imagem := imagem_key; outputKey := output_key;
                      qtd_pessoas := Z.of_nat n_pessoas;
                      bateria := None; hora_imagem := None;
                      hora_execucao := hora |}).
Proof.
  intros Hb Ht. unfold monta, monta_item, bind, ret. rewrite Hb. cbv beta iota.
  by rewrite Ht.
Qed.




End SalvaDynamo.

(** C8. When the metadata has neither "battery-level" nor
    "device-timestamp", [salva_dynamo] attempts one write, first thing, of an
    item whose battery and device-timestamp fields are empty; nothing fails
    before that write, and when the table accepts it [salva_dynamo] returns
    normally with the item in the table. *)
Theorem salva_dynamo_sem_metadados (cfg : Config) (env : Env)
    (imagem_key output_key : string) (n_pessoas : nat)
    (metadados : gmap string string) (hora : string) (w : World) :
  metadados !! "battery-level" = None ->
  metadados !! "device-timestamp" = None ->
  let run := salva_dynamo cfg env imagem_key output_key n_pessoas metadados hora w in
  exists item rest,
    bateria item = None /\ hora_imagem item = None /\
    imagem item = imagem_key /\ outputKey item = output_key /\
    events_since w (fst run) =
      EvPutItem (NOME_TABELA cfg) item (env_put_item env w (NOME_TABELA cfg) item) :: rest /\
    (env_put_item env w (NOME_TABELA cfg) item = None ->
     snd run = Ok tt /\ w_table (fst run) = w_table w ++ [item]).
Proof.
  intros Hb Ht run. subst run. rewrite salva_dynamo_unfold.
  rewrite monta_item_sem_valores by (by rewrite ?Hb, ?Ht). cbn [snd].
  match goal with |- context [env_put_item env w _ ?i] => set (item := i) end.
  exists item.
  destruct (env_put_item env w (NOME_TABELA cfg) item) as [[m|m]|];
    cbn [fst snd]; since_norm; eexists; repeat split; done.
Qed.

(** With no metadata at all the write of a.jpg goes through, both fields
    empty. *)
Lemma salva_dynamo_sem_metadados_witness :
  exists item rest,
    bateria item = None /\ hora_imagem item = None /\
    imagem item = "a.jpg" /\ outputKey item = "resultados/out_a.jpg" /\
    events_since Cenario.w0
      (fst (salva_dynamo Cenario.cfg Cenario.calmo "a.jpg" "resultados/out_a.jpg" 2 ∅
              "2024-01-01T12:00:00-03:00" Cenario.w0)) =
      EvPutItem "yolo-resultados" item None :: rest /\
    (@None exn = None ->
     snd (salva_dynamo Cenario.cfg Cenario.calmo "a.jpg" "resultados/out_a.jpg" 2 ∅
            "2024-01-01T12:00:00-03:00" Cenario.w0) = Ok tt /\
     w_table (fst (salva_dynamo Cenario.cfg Cenario.calmo "a.jpg" "resultados/out_a.jpg" 2 ∅
                     "2024-01-01T12:00:00-03:00" Cenario.w0)) = [] ++ [item]).
Proof.
  apply (salva_dynamo_sem_metadados Cenario.cfg Cenario.calmo "a.jpg"
           "resultados/out_a.jpg" 2 ∅ "2024-01-01T12:00:00-03:00" Cenario.w0);
    reflexivity.
Defined.



(** ** processa_imagem: keys and paths *)

Ltac unfold_processa := unfold processa_imagem, download_s3, upload_s3.

(** Split a membership in an explicit list into its cases. *)
Ltac elem_cases H :=
  repeat (apply elem_of_cons in H as [H|H]; [subst|]);
  [..|by apply elem_of_nil in H].

Section ProcessaImagem.

Variable cfg : Config.
Variable env : Env.

(** Whatever happens, the keys and the local paths used by one run are the
    ones computed from the input key. *)
Lemma processa_imagem_chaves (k : string) (w : World) (ev : Event) :
  ev ∈ events_since w (fst (processa_imagem cfg env k w)) ->
  (forall key, chave_de_saida ev = Some key -> key = output_key_of cfg k) /\
  (forall p, caminho_local ev = Some p ->
     p = local_input_of k \/ p = local_output_of k).
Proof.
  change (wp (processa_imagem cfg env k)
            (fun w' _ =>
               ev ∈ events_since w w' ->
               (forall key, chave_de_saida ev = Some key -> key = output_key_of cfg k) /\
               (forall p, caminho_local ev = Some p ->
                  p = local_input_of k \/ p = local_output_of k)) w).
  unfold_processa. wp_exec.
  all: since_norm; intros Hin; elem_cases Hin.
  all: split; intros ? [= <-]; auto.
Qed.

Lemma output_key_of_eq (k : string) :
  output_key_of cfg k = (OUTPUT_PREFIXO cfg ++ "out_" ++ basename k)%string.
Proof. unfold output_key_of. by rewrite basename_local_output. Qed.

End ProcessaImagem.

(** C4. The output key of an input key is the output prefix, then "out_",
    then the base name of the input key; every upload and every record write
    of [processa_imagem] carries exactly that key. *)
Theorem output_key_is_prefix_out_basename (cfg : Config) (env : Env)
    (input_key : string) (w : World) :
  output_key_of cfg input_key =
    (OUTPUT_PREFIXO cfg ++ "out_" ++ basename input_key)%string /\
  (forall ev key,
     ev ∈ events_since w (fst (processa_imagem cfg env input_key w)) ->
     chave_de_saida ev = Some key ->
     key = (OUTPUT_PREFIXO cfg ++ "out_" ++ basename input_key)%string).
Proof.
  split; [apply output_key_of_eq|].
  intros ev key Hin Hkey. rewrite <- output_key_of_eq.
  by apply (processa_imagem_chaves cfg env input_key w ev Hin).
Qed.

(** photos/001.jpg is uploaded and recorded as resultados/out_001.jpg. *)
Lemma output_key_is_prefix_out_basename_witness :
  output_key_of Cenario.cfg "photos/001.jpg" = "resultados/out_001.jpg" /\
  (forall ev key,
     ev ∈ events_since Cenario.w0
            (fst (processa_imagem Cenario.cfg Cenario.calmo "photos/001.jpg" Cenario.w0)) ->
     chave_de_saida ev = Some key ->
     key = "resultados/out_001.jpg").
Proof.
  exact (output_key_is_prefix_out_basename Cenario.cfg Cenario.calmo
           "photos/001.jpg" Cenario.w0).
Defined.

(** A run that returns normally has uploaded its local output file to its
    output key, the store holds what it held plus that object, and exactly
    one [put_item] was accepted, for this key and this output key. *)
Lemma processa_imagem_success_upload (cfg : Config) (env : Env) (k : string) (w : World) :
  snd (processa_imagem cfg env k w) = Ok tt ->
  EvUpload (local_output_of k) (BUCKET cfg) (output_key_of cfg k) None
    ∈ events_since w (fst (processa_imagem cfg env k w)) /\
  w_s3 (fst (processa_imagem cfg env k w)) =
    {[(BUCKET cfg, output_key_of cfg k)]} ∪ w_s3 w /\
  exists item,
    omap item_gravado (events_since w (fst (processa_imagem cfg env k w))) = [item] /\
    imagem item = k /\ outputKey item = output_key_of cfg k.
Proof.
  change (wp (processa_imagem cfg env k)
    (fun w' r =>
       r = Ok tt ->
       EvUpload (local_output_of k) (BUCKET cfg) (output_key_of cfg k) None
         ∈ events_since w w' /\
       w_s3 w' = {[(BUCKET cfg, output_key_of cfg k)]} ∪ w_s3 w /\
       exists item,
         omap item_gravado (events_since w w') = [item] /\
         imagem item = k /\ outputKey item = output_key_of cfg k) w).
  unfold_processa. wp_exec.
  all: intros Hr; try discriminate Hr.
  all: since_norm; world_simpl; split; [|split; [reflexivity|]].
  all: try (do 5 apply list_elem_of_further; apply list_elem_of_here).
  all: eexists; split; [reflexivity|]; split; assumption.
Qed.

(** C10. Two input keys with the same base name get the same output key and
    the same two scratch paths; any upload or record write of a run on one
    and of a run on the other carry the same output key, and every local path
    touched by a run on one is a scratch path of the other.  When a run on
    the first returns normally and, later in the batch (nothing having been
    deleted from the store), a run on the second returns normally too, each
    of them has uploaded the same local file name to the same object, and
    the second upload adds no object to the store: it lands on the object
    that the first one wrote (an upload to a key that exists replaces what
    the object held), and the two records that were accepted, one for each
    key, name that one object. *)
Theorem same_basename_same_names (cfg : Config) (k1 k2 : string) :
  basename k1 = basename k2 ->
  output_key_of cfg k1 = output_key_of cfg k2 /\
  local_input_of k1 = local_input_of k2 /\
  local_output_of k1 = local_output_of k2 /\
  (forall env w1 w2 ev1 ev2 key1 key2,
     ev1 ∈ events_since w1 (fst (processa_imagem cfg env k1 w1)) ->
     ev2 ∈ events_since w2 (fst (processa_imagem cfg env k2 w2)) ->
     chave_de_saida ev1 = Some key1 -> chave_de_saida ev2 = Some key2 ->
     key1 = key2) /\
  (forall env w1 ev1 p,
     ev1 ∈ events_since w1 (fst (processa_imagem cfg env k1 w1)) ->
     caminho_local ev1 = Some p ->
     p = local_input_of k2 \/ p = local_output_of k2) /\
  (forall env w w',
     snd (processa_imagem cfg env k1 w) = Ok tt ->
     w_s3 (fst (processa_imagem cfg env k1 w)) ⊆ w_s3 w' ->
     snd (processa_imagem cfg env k2 w') = Ok tt ->
     EvUpload (local_output_of k1) (BUCKET cfg) (output_key_of cfg k1) None
       ∈ events_since w (fst (processa_imagem cfg env k1 w)) /\
     EvUpload (local_output_of k1) (BUCKET cfg) (output_key_of cfg k1) None
       ∈ events_since w' (fst (processa_imagem cfg env k2 w')) /\
     (BUCKET cfg, output_key_of cfg k1) ∈ w_s3 w' /\
     w_s3 (fst (processa_imagem cfg env k2 w')) = w_s3 w' /\
     exists item1 item2,
       omap item_gravado (events_since w (fst (processa_imagem cfg env k1 w))) = [item1] /\
       omap item_gravado (events_since w' (fst (processa_imagem cfg env k2 w'))) = [item2] /\
       imagem item1 = k1 /\ imagem item2 = k2 /\
       outputKey item1 = output_key_of cfg k1 /\ outputKey item2 = output_key_of cfg k1).
Proof.
  intros Hb.
  assert (Hin : local_input_of k1 = local_input_of k2) by exact Hb.
  assert (Hout : local_output_of k1 = local_output_of k2).
  { unfold local_output_of. by rewrite Hin. }
  assert (Hkey : output_key_of cfg k1 = output_key_of cfg k2).
  { unfold output_key_of. by rewrite Hout. }
  split; [exact Hkey|]. split; [exact Hin|]. split; [exact Hout|].
  split; [|split].
  - intros env w1 w2 ev1 ev2 key1 key2 H1 H2 E1 E2.
    apply (processa_imagem_chaves cfg env k1 w1 ev1 H1) in E1.
    apply (processa_imagem_chaves cfg env k2 w2 ev2 H2) in E2.
    congruence.
  - intros env w1 ev1 p H1 E1. rewrite <- Hin, <- Hout.
    by apply (processa_imagem_chaves cfg env k1 w1 ev1 H1).
  - intros env w w' Hok1 Hlater Hok2.
    destruct (processa_imagem_success_upload cfg env k1 w Hok1)
      as (Hup1 & Hs1 & item1 & Hp1 & Hi1 & Ho1).
    destruct (processa_imagem_success_upload cfg env k2 w' Hok2)
      as (Hup2 & Hs2 & item2 & Hp2 & Hi2 & Ho2).
    rewrite <- Hout, <- Hkey in Hup2. rewrite <- Hkey in Hs2, Ho2.
    assert (Hthere : (BUCKET cfg, output_key_of cfg k1) ∈ w_s3 w').
    { apply Hlater. rewrite Hs1. apply elem_of_union. left. by apply elem_of_singleton. }
    split; [exact Hup1|]. split; [exact Hup2|]. split; [exact Hthere|].
    split; [|by exists item1, item2].
    rewrite Hs2. apply set_eq. intros obj. rewrite elem_of_union, elem_of_singleton.
    split; [intros [-> | H]; done|by right].
Qed.

(** a/x.jpg and b/x.jpg are different keys that share x.jpg, out_x.jpg and
    resultados/out_x.jpg; processed one after the other, both upload out_x.jpg
    to resultados/out_x.jpg and the second leaves the store with the objects
    it had after the first. *)
Lemma same_basename_same_names_witness :
  let run1 := processa_imagem Cenario.cfg Cenario.mesmos_nomes "a/x.jpg" Cenario.w0 in
  let run2 := processa_imagem Cenario.cfg Cenario.mesmos_nomes "b/x.jpg" (fst run1) in
  "a/x.jpg" <> "b/x.jpg" /\
  output_key_of Cenario.cfg "a/x.jpg" = output_key_of Cenario.cfg "b/x.jpg" /\
  local_input_of "a/x.jpg" = local_input_of "b/x.jpg" /\
  local_output_of "a/x.jpg" = local_output_of "b/x.jpg" /\
  EvUpload "out_x.jpg" "fotos-esp32" "resultados/out_x.jpg" None
    ∈ events_since Cenario.w0 (fst run1) /\
  EvUpload "out_x.jpg" "fotos-esp32" "resultados/out_x.jpg" None
    ∈ events_since (fst run1) (fst run2) /\
  ("fotos-esp32", "resultados/out_x.jpg") ∈ w_s3 (fst run1) /\
  w_s3 (fst run2) = w_s3 (fst run1) /\
  exists item1 item2,
    omap item_gravado (events_since Cenario.w0 (fst run1)) = [item1] /\
    omap item_gravado (events_since (fst run1) (fst run2)) = [item2] /\
    imagem item1 = "a/x.jpg" /\ imagem item2 = "b/x.jpg" /\
    outputKey item1 = "resultados/out_x.jpg" /\ outputKey item2 = "resultados/out_x.jpg".
Proof.
  intros run1 run2.
  destruct (same_basename_same_names Cenario.cfg "a/x.jpg" "b/x.jpg")
    as (Hkey & Hin & Hout & _ & _ & Hover); [reflexivity|].
  split; [discriminate|]. split; [exact Hkey|]. split; [exact Hin|]. split; [exact Hout|].
  apply (Hover Cenario.mesmos_nomes Cenario.w0 (fst run1)).
  - vm_compute. reflexivity.
  - reflexivity.
  - vm_compute. reflexivity.
Defined.

Example output_key_x :
  output_key_of Cenario.cfg "a/x.jpg" = "resultados/out_x.jpg" /\
  output_key_of Cenario.cfg "b/x.jpg" = "resultados/out_x.jpg".
Proof. split; reflexivity. Qed.

(** ** processa_imagem: records written *)

(** C2. A run of [processa_imagem] that returns normally has made exactly one
    call to [put_item], and the table has gained exactly one item, the one
    for this picture.  A run that ends on a failed download, detection,
    write of the annotated picture or upload has made no call to [put_item]
    and has left the table as it was. *)
Theorem one_record_per_processed_item (cfg : Config) (env : Env)
    (input_key : string) (w : World) :
  let w' := fst (processa_imagem cfg env input_key w) in
  let r := snd (processa_imagem cfg env input_key w) in
  let evs := events_since w w' in
  (r = Ok tt ->
   put_count evs = 1%nat /\
   exists item, w_table w' = w_table w ++ [item] /\ imagem item = input_key) /\
  (forall e ev,
     r = Raise e -> last evs = Some ev -> antes_de_gravar ev = true ->
     put_count evs = 0%nat /\ w_table w' = w_table w).
Proof.
  change (wp (processa_imagem cfg env input_key)
    (fun w' r =>
       (r = Ok tt ->
        put_count (events_since w w') = 1%nat /\
        exists item, w_table w' = w_table w ++ [item] /\ imagem item = input_key) /\
       (forall e ev,
          r = Raise e -> last (events_since w w') = Some ev ->
          antes_de_gravar ev = true ->
          put_count (events_since w w') = 0%nat /\ w_table w' = w_table w)) w).
  unfold_processa. wp_exec.
  all: since_norm; split; [intros ?|intros ? ? ? Hl Ha]; try discriminate.
  all: try (injection Hl as <-; discriminate Ha).
  all: try (by split).
  all: split; [reflexivity|eexists; split; [reflexivity|done]].
Qed.

(** a.jpg goes through and is recorded once; ruim.jpg fails in the detector
    and is not recorded. *)
Lemma one_record_per_processed_item_witness :
  put_count (events_since Cenario.w0
               (fst (processa_imagem Cenario.cfg Cenario.calmo "a.jpg" Cenario.w0))) = 1%nat /\
  put_count (events_since Cenario.w0
               (fst (processa_imagem Cenario.cfg Cenario.detector_falha "ruim.jpg"
                       Cenario.w0))) = 0%nat.
Proof.
  split.
  - apply (proj1 (one_record_per_processed_item Cenario.cfg Cenario.calmo "a.jpg" Cenario.w0)).
    vm_compute. reflexivity.
  - apply (proj2 (one_record_per_processed_item Cenario.cfg Cenario.detector_falha
                    "ruim.jpg" Cenario.w0)
             (OtherException "cv2.error")
             (EvDetect "yolov8n.pt" "ruim.jpg" (Raise (OtherException "cv2.error")))).
    + vm_compute. reflexivity.
    + vm_compute. reflexivity.
    + reflexivity.
Defined.

(** ** processa_imagem: a failed record write *)

(** Split a lookup in an explicit list into its cases. *)
Ltac lookup_cases H i :=
  repeat (destruct i as [|i]; simpl in H; try discriminate H).

Lemma salva_dynamo_reraises (cfg : Config) (env : Env)
    (imagem_key output_key : string) (n_pessoas : nat)
    (metadados : gmap string string) (hora : string) (w : World)
    (item : Item) (e : exn) :
  snd (monta_item env imagem_key output_key n_pessoas metadados hora w) = Ok item ->
  env_put_item env w (NOME_TABELA cfg) item = Some e ->
  snd (salva_dynamo cfg env imagem_key output_key n_pessoas metadados hora w) = Raise e.
Proof.
  intros Hitem Hput. rewrite salva_dynamo_unfold, Hitem, Hput. by destruct e.
Qed.

Lemma processa_imagem_failed_write (cfg : Config) (env : Env)
    (input_key : string) (w : World) (i : nat) (t : string) (item : Item) (e : exn) :
  events_since w (fst (processa_imagem cfg env input_key w)) !! i =
    Some (EvPutItem t item (Some e)) ->
  snd (processa_imagem cfg env input_key w) = Raise e /\
  (BUCKET cfg, output_key_of cfg input_key) ∈ w_s3 (fst (processa_imagem cfg env input_key w)) /\
  exists j, (j < i)%nat /\
    events_since w (fst (processa_imagem cfg env input_key w)) !! j =
      Some (EvUpload (local_output_of input_key) (BUCKET cfg)
              (output_key_of cfg input_key) None).
Proof.
  revert i.
  change (wp (processa_imagem cfg env input_key)
    (fun w' r => forall i,
       events_since w w' !! i = Some (EvPutItem t item (Some e)) ->
       r = Raise e /\
       (BUCKET cfg, output_key_of cfg input_key) ∈ w_s3 w' /\
       exists j, (j < i)%nat /\
         events_since w w' !! j =
           Some (EvUpload (local_output_of input_key) (BUCKET cfg)
                   (output_key_of cfg input_key) None)) w).
  unfold_processa. wp_exec.
  all: since_norm; intros i Hi; lookup_cases Hi i.
  all: injection Hi as <- <- <-.
  all: split; [reflexivity|]; split;
    [world_simpl; apply elem_of_union; left; by apply elem_of_singleton|].
  all: exists 5%nat; split; [lia|reflexivity].
Qed.

(** C6. When [put_item] fails, [salva_dynamo] raises that same error to its
    caller, and so does [processa_imagem]; the failed write comes after the
    successful upload of the annotated picture, and the uploaded object is
    still in the store when [processa_imagem] exits. *)
Theorem failed_write_is_raised_after_upload (cfg : Config) (env : Env)
    (input_key : string) (w : World) :
  (forall output_key n_pessoas metadados hora w1 item e,
     snd (monta_item env input_key output_key n_pessoas metadados hora w1) = Ok item ->
     env_put_item env w1 (NOME_TABELA cfg) item = Some e ->
     snd (salva_dynamo cfg env input_key output_key n_pessoas metadados hora w1) = Raise e) /\
  (forall i t item e,
     events_since w (fst (processa_imagem cfg env input_key w)) !! i =
       Some (EvPutItem t item (Some e)) ->
     snd (processa_imagem cfg env input_key w) = Raise e /\
     (BUCKET cfg, output_key_of cfg input_key)
       ∈ w_s3 (fst (processa_imagem cfg env input_key w)) /\
     exists j, (j < i)%nat /\
       events_since w (fst (processa_imagem cfg env input_key w)) !! j =
         Some (EvUpload (local_output_of input_key) (BUCKET cfg)
                 (output_key_of cfg input_key) None)).
Proof.
  split.
  - intros. by eapply salva_dynamo_reraises.
  - intros i t item e Hi.
    exact (processa_imagem_failed_write cfg env input_key w i t item e Hi).
Qed.

(** The table refuses the item of a.jpg: the run raises the table's error,
    and resultados/out_a.jpg is in the store all the same. *)
Lemma failed_write_is_raised_after_upload_witness :
  snd (salva_dynamo Cenario.cfg Cenario.tabela_falha "a.jpg" "resultados/out_a.jpg" 2 ∅
         "2024-01-01T12:00:00-03:00" Cenario.w0) =
    Raise (ClientError "ProvisionedThroughputExceededException") /\
  snd (processa_imagem Cenario.cfg Cenario.tabela_falha "a.jpg" Cenario.w0) =
    Raise (ClientError "ProvisionedThroughputExceededException") /\
  ("fotos-esp32", "resultados/out_a.jpg")
    ∈ w_s3 (fst (processa_imagem Cenario.cfg Cenario.tabela_falha "a.jpg" Cenario.w0)) /\
  exists j, (j < 7)%nat /\
    events_since Cenario.w0
      (fst (processa_imagem Cenario.cfg Cenario.tabela_falha "a.jpg" Cenario.w0)) !! j =
      Some (EvUpload "out_a.jpg" "fotos-esp32" "resultados/out_a.jpg" None).
Proof.
  pose (item := {| imagem := "a.jpg"; outputKey := "resultados/out_a.jpg";
                   qtd_pessoas := 2; bateria := None; hora_imagem := None;
                   hora_execucao := "2024-01-01T12:00:00-03:00" |}).
  split.
  - apply (proj1 (failed_write_is_raised_after_upload Cenario.cfg Cenario.tabela_falha
                    "a.jpg" Cenario.w0)
             "resultados/out_a.jpg" 2%nat ∅ "2024-01-01T12:00:00-03:00" Cenario.w0 item
             (ClientError "ProvisionedThroughputExceededException")); reflexivity.
  - apply (proj2 (failed_write_is_raised_after_upload Cenario.cfg Cenario.tabela_falha
                    "a.jpg" Cenario.w0)
             7%nat "yolo-resultados" item
             (ClientError "ProvisionedThroughputExceededException")).
    vm_compute. reflexivity.
Defined.

(** ** pega_metadados *)

Lemma pega_metadados_other_exception (env : Env) (bucket key : string) (w : World)
    (m : string) :
  env_head_object env w bucket key = Raise (OtherException m) ->
  pega_metadados env bucket key w =
    (log (EvHead bucket key (Raise (OtherException m))) w, Raise (OtherException m)).
Proof.
  intros H. unfold pega_metadados, try_except, bind, head_object. by rewrite H.
Qed.

(** C5, as stated, fails: [head_object] can fail with an exception that is
    not a [ClientError] (no route to the endpoint, for one), and
    [pega_metadados] lets it through. *)
Lemma pega_metadados_any_failure_counterexample :
  ~ (forall env bucket key w e,
       env_head_object env w bucket key = Raise e ->
       snd (pega_metadados env bucket key w) = Ok ∅).
Proof.
  intros H.
  specialize (H Cenario.sem_rede "fotos-esp32" "a.jpg" Cenario.w0
                (OtherException "EndpointConnectionError") eq_refl).
  rewrite (pega_metadados_other_exception _ _ _ _ "EndpointConnectionError") in H
    by reflexivity.
  discriminate H.
Qed.

(** [salva_dynamo] on empty metadata: the item cannot fail to build, so the
    write is always attempted. *)
Lemma wp_salva_dynamo_vazio (cfg : Config) (env : Env)
    (imagem_key output_key : string) (n_pessoas : nat) (hora : string) Q w :
  (forall item,
     Q (log (EvPrint ("Gravado no DynamoDB: " ++ imagem_key)%string)
            (log (EvPutItem (NOME_TABELA cfg) item None)
                 (set_table (w_table w ++ [item]) w))) (Ok tt)) ->
  (forall item m,
     Q (log (EvPrint ("Falha ao gravar no DynamoDB: " ++ m)%string)
            (log (EvPutItem (NOME_TABELA cfg) item (Some (ClientError m))) w))
       (Raise (ClientError m))) ->
  (forall item m,
     Q (log (EvPutItem (NOME_TABELA cfg) item (Some (OtherException m))) w)
       (Raise (OtherException m))) ->
  wp (salva_dynamo cfg env imagem_key output_key n_pessoas ∅ hora) Q w.
Proof.
  intros Hok Hcli Hoth. unfold wp. rewrite salva_dynamo_unfold.
  rewrite monta_item_sem_valores by (by rewrite lookup_empty). cbn [snd].
  match goal with |- context [env_put_item env w _ ?i] => set (item := i) end.
  destruct (env_put_item env w (NOME_TABELA cfg) item) as [[m|m]|]; cbn [fst snd]; auto.
Qed.

(** A [ClientError] of [head_object] does not stop the item: the run still
    reaches the record write. *)
Lemma processa_imagem_head_client_error (cfg : Config) (env : Env)
    (input_key : string) (w : World) (m : string) :
  EvHead (BUCKET cfg) input_key (Raise (ClientError m))
    ∈ events_since w (fst (processa_imagem cfg env input_key w)) ->
  put_count (events_since w (fst (processa_imagem cfg env input_key w))) = 1%nat.
Proof.
  change (wp (processa_imagem cfg env input_key)
    (fun w' _ =>
       EvHead (BUCKET cfg) input_key (Raise (ClientError m)) ∈ events_since w w' ->
       put_count (events_since w w') = 1%nat) w).
  unfold_processa.
  repeat (cbv beta zeta iota;
          first [wp_prim | apply wp_salva_dynamo_vazio; intros | wp_comp]).
  all: since_norm; intros Hin; try reflexivity.
  all: elem_cases Hin; discriminate.
Qed.

(** C5, amended. When [head_object] fails with a [ClientError],
    [pega_metadados] prints the failure with the key, returns the empty
    dictionary and raises nothing; inside [processa_imagem] such a failure
    does not stop the item, which goes on to its record write. *)
Theorem pega_metadados_client_error (cfg : Config) (env : Env)
    (bucket key : string) (w : World) (m : string) :
  env_head_object env w bucket key = Raise (ClientError m) ->
  pega_metadados env bucket key w =
    (log (EvPrint ("Falha ao obter metadados de " ++ key ++ ": " ++ m)%string)
       (log (EvHead bucket key (Raise (ClientError m))) w), Ok ∅) /\
  (forall input_key w1,
     EvHead (BUCKET cfg) input_key (Raise (ClientError m))
       ∈ events_since w1 (fst (processa_imagem cfg env input_key w1)) ->
     put_count (events_since w1 (fst (processa_imagem cfg env input_key w1))) = 1%nat).
Proof.
  intros H. split.
  - unfold pega_metadados, try_except, bind, head_object. by rewrite H.
  - intros input_key w1. apply processa_imagem_head_client_error.
Qed.

(** The object has no head (404): the failure is printed and the metadata
    are empty. *)
Lemma pega_metadados_client_error_witness :
  pega_metadados Cenario.head_404 "fotos-esp32" "a.jpg" Cenario.w0 =
    (log (EvPrint "Falha ao obter metadados de a.jpg: 404")
       (log (EvHead "fotos-esp32" "a.jpg" (Raise (ClientError "404"))) Cenario.w0), Ok ∅).
Proof.
  apply (pega_metadados_client_error Cenario.cfg Cenario.head_404 "fotos-esp32" "a.jpg"
           Cenario.w0 "404").
  reflexivity.
Defined.

(** ** processa_imagem: the scratch files *)

Local Set Warnings "-clear-no-such-hyp".

Lemma local_output_ne_input (k : string) : local_output_of k <> local_input_of k.
Proof.
  unfold local_output_of. intros H. apply (f_equal String.length) in H.
  rewrite length_append in H. simpl in H. lia.
Qed.

(** A run that returns normally has removed both scratch files. *)
Lemma processa_imagem_success_cleans (cfg : Config) (env : Env)
    (input_key : string) (w : World) :
  snd (processa_imagem cfg env input_key w) = Ok tt ->
  (local_input_of input_key ∉ w_fs (fst (processa_imagem cfg env input_key w))) /\
  (local_output_of input_key ∉ w_fs (fst (processa_imagem cfg env input_key w))).
Proof.
  change (wp (processa_imagem cfg env input_key)
    (fun w' r =>
       r = Ok tt ->
       (local_input_of input_key ∉ w_fs w') /\ (local_output_of input_key ∉ w_fs w')) w).
  unfold_processa. wp_exec.
  all: intros Hr; try discriminate Hr.
  all: world_simpl; split; set_solver.
Qed.

(** A run that fails after its download has succeeded leaves a scratch file
    behind, whatever the step that failed. *)
Lemma processa_imagem_failure_leaves_scratch (cfg : Config) (env : Env)
    (input_key : string) (w : World) (e : exn) :
  snd (processa_imagem cfg env input_key w) = Raise e ->
  EvDownload (BUCKET cfg) input_key (local_input_of input_key) None
    ∈ events_since w (fst (processa_imagem cfg env input_key w)) ->
  local_input_of input_key ∈ w_fs (fst (processa_imagem cfg env input_key w)) \/
  local_output_of input_key ∈ w_fs (fst (processa_imagem cfg env input_key w)).
Proof.
  pose proof (local_output_ne_input input_key) as Hne.
  change (wp (processa_imagem cfg env input_key)
    (fun w' r =>
       r = Raise e ->
       EvDownload (BUCKET cfg) input_key (local_input_of input_key) None
         ∈ events_since w w' ->
       local_input_of input_key ∈ w_fs w' \/ local_output_of input_key ∈ w_fs w') w).
  unfold_processa. wp_exec.
  all: intros Hr; try discriminate Hr.
  all: since_norm; intros Hin; world_simpl.
  all: try (left; set_solver).
  all: try (right; set_solver).
  all: elem_cases Hin; discriminate.
Qed.

(** C3 does not hold of the code.  The detector fails on ruim.jpg: the run
    raises and the downloaded ruim.jpg is still in the working directory.
    The table refuses the item of a.jpg: the run raises and both a.jpg and
    out_a.jpg are still there. *)
Theorem scratch_files_left_after_failure :
  let run1 := processa_imagem Cenario.cfg Cenario.detector_falha "ruim.jpg" Cenario.w0 in
  let run2 := processa_imagem Cenario.cfg Cenario.tabela_falha "a.jpg" Cenario.w0 in
  snd run1 = Raise (OtherException "cv2.error") /\
  "ruim.jpg" ∈ w_fs (fst run1) /\
  snd run2 = Raise (ClientError "ProvisionedThroughputExceededException") /\
  "a.jpg" ∈ w_fs (fst run2) /\
  "out_a.jpg" ∈ w_fs (fst run2).
Proof.
  cbv zeta. repeat apply conj.
  - vm_compute. reflexivity.
  - apply (bool_decide_unpack _). vm_compute. exact I.
  - vm_compute. reflexivity.
  - apply (bool_decide_unpack _). vm_compute. exact I.
  - apply (bool_decide_unpack _). vm_compute. exact I.
Qed.

(** ** main: the loop over the items *)

Section Orquestrador.

Variable cfg : Config.
Variable env : Env.

(** One run of [processa_imagem] only adds to the trace, and makes exactly
    one call to [download_file], for its own key. *)
Lemma processa_imagem_trace (k : string) (w : World) :
  exists evs,
    w_trace (fst (processa_imagem cfg env k w)) = w_trace w ++ evs /\
    chaves_baixadas evs = [k].
Proof.
  change (wp (processa_imagem cfg env k)
    (fun w' _ => exists evs, w_trace w' = w_trace w ++ evs /\ chaves_baixadas evs = [k]) w).
  unfold_processa. wp_exec.
  all: eexists; split; [trace_norm; reflexivity|reflexivity].
Qed.

(** The body of the loop never raises; when the item failed, the line with
    its key and its error is printed. *)
Lemma processa_item_run (k : string) (w : World) :
  snd (processa_item cfg env k w) = Ok tt /\
  exists evs,
    w_trace (fst (processa_item cfg env k w)) = w_trace w ++ evs /\
    chaves_baixadas evs = [k] /\
    forall e, snd (processa_imagem cfg env k w) = Raise e ->
      EvPrint ("Erro ao processar " ++ k ++ ": " ++ str_exn e)%string ∈ evs.
Proof.
  destruct (processa_imagem_trace k w) as (evs & Ht & Hk).
  unfold processa_item, try_except, print.
  destruct (processa_imagem cfg env k w) as [w1 [[]|e]]; cbn [fst snd is_Exception] in *.
  - split; [done|]. exists evs. repeat split; [done..|]. by intros e [=].
  - split; [done|].
    exists (evs ++ [EvPrint ("Erro ao processar " ++ k ++ ": " ++ str_exn e)%string]).
    split; [|split].
    + cbn [w_trace log]. rewrite Ht. by rewrite app_assoc.
    + unfold chaves_baixadas in *. rewrite omap_app, Hk. reflexivity.
    + intros e' [= <-]. apply elem_of_app. right. apply list_elem_of_singleton. done.
Qed.

Lemma for_each_processa_item_run (keys : list string) (w : World) :
  snd (for_each keys (processa_item cfg env) w) = Ok tt /\
  exists evs,
    w_trace (fst (for_each keys (processa_item cfg env) w)) = w_trace w ++ evs /\
    chaves_baixadas evs = keys /\
    forall pre k post e,
      keys = pre ++ k :: post ->
      snd (processa_imagem cfg env k (fst (for_each pre (processa_item cfg env) w)))
        = Raise e ->
      EvPrint ("Erro ao processar " ++ k ++ ": " ++ str_exn e)%string ∈ evs.
Proof.
  revert w. induction keys as [|k0 keys IH]; intros w.
  - split; [done|]. exists []. repeat split; [by rewrite app_nil_r|].
    intros [|? ?] ? ? ? [=].
  - destruct (processa_item_run k0 w) as (Hr & evs0 & Ht0 & Hk0 & He0).
    assert (Hstep : forall ks,
              for_each (k0 :: ks) (processa_item cfg env) w =
              for_each ks (processa_item cfg env) (fst (processa_item cfg env k0 w))).
    { intros ks. cbn [for_each]. unfold bind.
      destruct (processa_item cfg env k0 w) as [w1 r1]. cbn [snd] in Hr. by subst r1. }
    rewrite Hstep.
    destruct (IH (fst (processa_item cfg env k0 w))) as (Hr1 & evs1 & Ht1 & Hk1 & He1).
    split; [done|]. exists (evs0 ++ evs1). split; [|split].
    + rewrite Ht1, Ht0. by rewrite app_assoc.
    + unfold chaves_baixadas in *. rewrite omap_app, Hk0, Hk1. reflexivity.
    + intros pre k post e Hsplit Hfail. apply elem_of_app.
      destruct pre as [|p pre]; cbn [app] in Hsplit; injection Hsplit as <- Hks.
      * left. apply He0. exact Hfail.
      * right. rewrite Hstep in Hfail. by eapply He1.
Qed.

End Orquestrador.

(** [main] after a successful listing: the early return, or the loop. *)
Lemma main_unfold (cfg : Config) (env : Env) (w : World) (pags : list Page) :
  let w_list :=
    log (EvPrint ("Listando imagens em s3://" ++ BUCKET cfg ++ "/" ++ INPUT_PREFIXO cfg)%string) w in
  let w_loop := log (EvPaginate (BUCKET cfg) (INPUT_PREFIXO cfg) (Ok pags)) w_list in
  let imagens := fold_left lista_pagina pags [] in
  env_paginate env w_list (BUCKET cfg) (INPUT_PREFIXO cfg) = Ok pags ->
  main cfg env w =
    match imagens with
    | [] => (log (EvPrint "Nenhuma imagem encontrada no bucket.") w_loop, Ok tt)
    | _ => for_each imagens (processa_item cfg env) w_loop
    end.
Proof.
  intros w_list w_loop imagens Hpag.
  unfold main, lista_imagens, bind, print, paginate, ret. cbn [fst snd].
  fold w_list. rewrite Hpag. fold w_loop. fold imagens. by destruct imagens.
Qed.

(** Once the listing has succeeded the script ends normally: no error of an
    item reaches the handlers of the [__main__] block. *)
Lemma script_returns_when_listed (cfg : Config) (env : Env) (w : World)
    (pags : list Page) :
  env_paginate env
    (log (EvPrint ("Listando imagens em s3://" ++ BUCKET cfg ++ "/" ++ INPUT_PREFIXO cfg)%string) w)
    (BUCKET cfg) (INPUT_PREFIXO cfg) = Ok pags ->
  snd (script cfg env w) = Ok tt.
Proof.
  intros Hpag. unfold script, try_except.
  rewrite (main_unfold cfg env w pags Hpag).
  destruct (fold_left lista_pagina pags []) as [|k ks]; [done|].
  match goal with |- context [for_each ?l ?b ?x] =>
    destruct (for_each_processa_item_run cfg env l x) as [Hr _];
    destruct (for_each l b x) as [w1 r1]
  end.
  cbn [snd] in Hr. by subst r1.
Qed.

(** A failed listing is fatal: the script prints it and raises it again. *)
Lemma script_raises_when_listing_fails (cfg : Config) (env : Env) (w : World) (e : exn) :
  env_paginate env
    (log (EvPrint ("Listando imagens em s3://" ++ BUCKET cfg ++ "/" ++ INPUT_PREFIXO cfg)%string) w)
    (BUCKET cfg) (INPUT_PREFIXO cfg) = Raise e ->
  snd (script cfg env w) = Raise e.
Proof.
  intros Hpag.
  unfold script, try_except, main, lista_imagens, bind, print, paginate.
  cbn [fst snd]. rewrite Hpag. cbn [is_Exception]. by destruct e.
Qed.

(** C1. Once the listing has succeeded, [main] returns normally whatever
    happens to the items: every listed image, in listing order, gets its
    call to [processa_imagem] (seen by the download it starts with), also
    after earlier items have failed; and for every item whose
    [processa_imagem] raises, the line "Erro ao processar <key>: <error>" is
    printed. *)
Theorem main_isolates_item_failures (cfg : Config) (env : Env) (w : World)
    (pags : list Page) :
  let w_list :=
    log (EvPrint ("Listando imagens em s3://" ++ BUCKET cfg ++ "/" ++ INPUT_PREFIXO cfg)%string) w in
  let w_loop := log (EvPaginate (BUCKET cfg) (INPUT_PREFIXO cfg) (Ok pags)) w_list in
  let imagens := fold_left lista_pagina pags [] in
  env_paginate env w_list (BUCKET cfg) (INPUT_PREFIXO cfg) = Ok pags ->
  snd (main cfg env w) = Ok tt /\
  chaves_baixadas (events_since w (fst (main cfg env w))) = imagens /\
  (forall pre k post e,
     imagens = pre ++ k :: post ->
     snd (processa_imagem cfg env k (fst (for_each pre (processa_item cfg env) w_loop)))
       = Raise e ->
     EvPrint ("Erro ao processar " ++ k ++ ": " ++ str_exn e)%string
       ∈ events_since w (fst (main cfg env w))).
Proof.
  intros w_list w_loop imagens Hpag.
  rewrite (main_unfold cfg env w pags Hpag). fold w_list w_loop imagens.
  destruct (for_each_processa_item_run cfg env imagens w_loop) as (Hr & evs & Ht & Hk & He).
  destruct imagens as [|k0 ks] eqn:Himg.
  - cbn [fst snd]. split; [done|]. split.
    + subst w_loop w_list. since_norm. reflexivity.
    + intros [|? ?] ? ? ? [=].
  - split; [exact Hr|].
    assert (Hsince : events_since w (fst (for_each (k0 :: ks) (processa_item cfg env) w_loop))
                     = [EvPrint ("Listando imagens em s3://" ++ BUCKET cfg ++ "/" ++
                                 INPUT_PREFIXO cfg)%string;
                        EvPaginate (BUCKET cfg) (INPUT_PREFIXO cfg) (Ok pags)] ++ evs).
    { apply events_since_app. rewrite Ht. subst w_loop w_list. trace_norm. reflexivity. }
    rewrite Hsince. split.
    + unfold chaves_baixadas in *. rewrite omap_app, Hk. reflexivity.
    + intros pre k post e Hsplit Hfail. apply elem_of_app. right. by eapply He.
Qed.

(** Three images are listed and the detector fails on the second one: [main]
    returns normally, all three were started, and the failure of ruim.jpg
    was printed. *)
Lemma main_isolates_item_failures_witness :
  snd (main Cenario.cfg Cenario.detector_falha Cenario.w0) = Ok tt /\
  chaves_baixadas
    (events_since Cenario.w0 (fst (main Cenario.cfg Cenario.detector_falha Cenario.w0))) =
    ["a.jpg"; "ruim.jpg"; "c.png"] /\
  EvPrint "Erro ao processar ruim.jpg: cv2.error"
    ∈ events_since Cenario.w0 (fst (main Cenario.cfg Cenario.detector_falha Cenario.w0)).
Proof.
  destruct (main_isolates_item_failures Cenario.cfg Cenario.detector_falha Cenario.w0
              [Cenario.pagina ["a.jpg"; "ruim.jpg"; "c.png"]] eq_refl)
    as (Hret & Hkeys & Herr).
  split; [exact Hret|]. split; [exact Hkeys|].
  apply (Herr ["a.jpg"] "ruim.jpg" ["c.png"] (OtherException "cv2.error")).
  - reflexivity.
  - vm_compute. reflexivity.
Defined.

(** In that run the two other images are recorded, and only they. *)
Example isolation_two_of_three :
  map imagem (w_table (fst (main Cenario.cfg Cenario.detector_falha Cenario.w0))) =
  ["a.jpg"; "c.png"].
Proof. vm_compute. reflexivity. Qed.

(** ** Whole runs *)

(** a/x.jpg and b/x.jpg in one run: two records, one output object. *)
Example same_basename_one_object :
  let w' := fst (main Cenario.cfg Cenario.mesmos_nomes Cenario.w0) in
  elements (w_s3 w') = [("fotos-esp32", "resultados/out_x.jpg")] /\
  map (fun item => (imagem item, outputKey item)) (w_table w') =
    [("a/x.jpg", "resultados/out_x.jpg"); ("b/x.jpg", "resultados/out_x.jpg")].
Proof. vm_compute. split; reflexivity. Qed.

(** photos/001.jpg with a battery level and a device time, two people seen. *)
Example end_to_end :
  let w' := fst (main Cenario.cfg Cenario.com_metadados Cenario.w0) in
  w_table w' =
    [ {| imagem := "photos/001.jpg"; outputKey := "resultados/out_001.jpg";
         qtd_pessoas := 2; bateria := Some (Dec "87.5");
         hora_imagem := Some "2024-01-01T10:00:00";
         hora_execucao := "2024-01-01T12:00:00-03:00" |} ] /\
  elements (w_fs w') = [].
Proof. vm_compute. split; reflexivity. Qed.

(** * Further properties of the script *)

(** ** Strings: lower case, slashes and base names *)

Lemma append_assoc (a b c : string) :
  ((a ++ b) ++ c)%string = (a ++ (b ++ c))%string.
Proof.
  induction a as [|x a IH]; [done|].
  change (String x ((a ++ b) ++ c)%string = String x (a ++ (b ++ c))%string).
  by rewrite IH.
Qed.

Lemma lower_app (a b : string) : lower (a ++ b)%string = (lower a ++ lower b)%string.
Proof.
  induction a as [|x a IH]; [done|].
  change (String (lower_ascii x) (lower (a ++ b)%string) =
          String (lower_ascii x) (lower a ++ lower b)%string).
  by rewrite IH.
Qed.

Lemma lower_ascii_slash (c : ascii) :
  Ascii.eqb (lower_ascii c) "/" = Ascii.eqb c "/".
Proof. destruct c as [[] [] [] [] [] [] [] []]; reflexivity. Qed.

Lemma has_sep_lower (s : string) : has_sep "/" (lower s) = has_sep "/" s.
Proof.
  induction s as [|c s IH]; [done|].
  cbn [lower has_sep]. by rewrite lower_ascii_slash, IH.
Qed.

Lemma basename_lower (p : string) : basename (lower p) = lower (basename p).
Proof.
  destruct (has_sep "/" p) eqn:Hp.
  - destruct (split_last_sep _ _ Hp) as (a & b & -> & Hb).
    rewrite basename_split by done. rewrite lower_app.
    change (lower (String "/" b)) with (String "/" (lower b)).
    apply basename_split. by rewrite has_sep_lower.
  - rewrite (basename_no_sep p Hp). apply basename_no_sep. by rewrite has_sep_lower.
Qed.

Lemma basename_app_no_sep (s x : string) :
  has_sep "/" x = false -> basename (s ++ x)%string = (basename s ++ x)%string.
Proof.
  intros Hx. destruct (has_sep "/" s) eqn:Hs.
  - destruct (split_last_sep _ _ Hs) as (a & b & -> & Hb).
    rewrite (basename_split a b Hb), append_assoc.
    change (String "/" b ++ x)%string with (String "/" (b ++ x)%string).
    apply basename_split. by rewrite has_sep_app, Hb, Hx.
  - rewrite (basename_no_sep s Hs). apply basename_no_sep.
    by rewrite has_sep_app, Hs, Hx.
Qed.

(** ** Names: accepted keys, output keys and scratch paths *)

Lemma aceita_app (p s : string) : aceita s = true -> aceita (p ++ s)%string = true.
Proof.
  rewrite !aceita_spec. intros [stem H]. exists (lower p ++ stem)%string.
  rewrite lower_app, !append_assoc. destruct H as [-> | ->]; auto.
Qed.

Lemma aceita_basename (k : string) : aceita k = true -> aceita (basename k) = true.
Proof.
  rewrite !aceita_spec. intros [stem H]. exists (basename stem).
  rewrite <- basename_lower.
  destruct H as [-> | ->]; [left|right]; by apply basename_app_no_sep.
Qed.

(** X1. For a key that [lista_imagens] accepts, the local input name is not
    empty and is itself accepted, and so are the local output name and the
    output key: what a run uploads is again a picture for [lista_imagens]. *)
Theorem accepted_key_gives_accepted_output (cfg : Config) (k : string) :
  aceita k = true ->
  local_input_of k <> EmptyString /\
  aceita (local_input_of k) = true /\
  aceita (local_output_of k) = true /\
  aceita (output_key_of cfg k) = true.
Proof.
  intros Hk. pose proof (aceita_basename k Hk) as Hb.
  split; [|split; [exact Hb|split]].
  - unfold local_input_of. intros Hnil. by rewrite Hnil in Hb.
  - unfold local_output_of. by apply aceita_app.
  - rewrite output_key_of_eq. by do 2 apply aceita_app.
Qed.

Lemma accepted_key_gives_accepted_output_witness :
  local_input_of "fotos/Sala.JPG" <> EmptyString /\
  aceita (local_input_of "fotos/Sala.JPG") = true /\
  aceita (local_output_of "fotos/Sala.JPG") = true /\
  aceita (output_key_of Cenario.cfg "fotos/Sala.JPG") = true.
Proof.
  apply (accepted_key_gives_accepted_output Cenario.cfg "fotos/Sala.JPG"). reflexivity.
Defined.

(** X2. The output key is never the input key: the upload of a run cannot
    overwrite the picture it was made from, whatever the key and the output
    prefix. *)
Theorem output_key_differs_from_input (cfg : Config) (k : string) :
  output_key_of cfg k <> k.
Proof.
  intros H. apply (f_equal basename) in H.
  rewrite output_key_of_eq in H.
  rewrite basename_app_no_sep in H
    by (by rewrite has_sep_app, basename_has_no_sep).
  apply (f_equal String.length) in H. rewrite !length_append in H.
  simpl in H. lia.
Qed.


(** ** salva_dynamo: what the metadata contribute *)

Lemma truthy_Some (v : string) : v <> EmptyString -> truthy (Some v) = true.
Proof. intros Hv. destruct v; [done|reflexivity]. Qed.

(** X4. When every non-empty "battery-level" at hand is a valid decimal,
    [salva_dynamo] builds its item without failing and attempts the write
    first thing: the battery is the decimal of a non-empty "battery-level",
    the device time is a non-empty "device-timestamp", the count is the one
    it was given, and an accepted write puts that item in the table. *)
Theorem salva_dynamo_records_metadata (cfg : Config) (env : Env)
    (imagem_key output_key : string) (n_pessoas : nat)
    (metadados : gmap string string) (hora : string) (w : World) :
  (forall v, metadados !! "battery-level" = Some v -> v <> EmptyString ->
             env_decimal_ok env v = true) ->
  let item :=
    {| imagem := imagem_key; outputKey := output_key;
       qtd_pessoas := Z.of_nat n_pessoas;
       bateria := if truthy (metadados !! "battery-level")
                  then Dec <$> metadados !! "battery-level" else None;
       hora_imagem := if truthy (metadados !! "device-timestamp")
                      then metadados !! "device-timestamp" else None;
       hora_execucao := hora |} in
  let run := salva_dynamo cfg env imagem_key output_key n_pessoas metadados hora w in
  (exists rest,
     events_since w (fst run) =
       EvPutItem (NOME_TABELA cfg) item (env_put_item env w (NOME_TABELA cfg) item) :: rest) /\
  (env_put_item env w (NOME_TABELA cfg) item = None ->
   snd run = Ok tt /\ w_table (fst run) = w_table w ++ [item]).
Proof.
  intros Hdec item run.
  assert (Hitem : monta_item env imagem_key output_key n_pessoas metadados hora w
                  = (w, Ok item)).
  { subst item. unfold monta_item, getitem, Decimal_of_str, bind, ret.
    destruct (metadados !! "battery-level") as [v|] eqn:Hv;
      destruct (metadados !! "device-timestamp") as [t|] eqn:Ht;
      cbn [truthy]; try destruct v as [|c v]; try destruct t as [|c' t];
      cbn [String.eqb negb fmap option_fmap option_map];
      try rewrite (Hdec _ eq_refl) by done; reflexivity. }
  subst run. rewrite salva_dynamo_unfold, Hitem. cbn [snd].
  destruct (env_put_item env w (NOME_TABELA cfg) item) as [[m|m]|];
    cbn [fst snd]; since_norm; split; try done; by eexists.
Qed.

Lemma salva_dynamo_records_metadata_witness :
  w_table (fst (salva_dynamo Cenario.cfg Cenario.calmo "photos/001.jpg"
                  "resultados/out_001.jpg" 2
                  {[ "battery-level" := "87.5"; "device-timestamp" := "2024-01-01T10:00:00" ]}
                  "2024-01-01T12:00:00-03:00" Cenario.w0)) =
  [] ++ [ {| imagem := "photos/001.jpg"; outputKey := "resultados/out_001.jpg";
             qtd_pessoas := 2; bateria := Some (Dec "87.5");
             hora_imagem := Some "2024-01-01T10:00:00";
             hora_execucao := "2024-01-01T12:00:00-03:00" |} ].
Proof.
  destruct (salva_dynamo_records_metadata Cenario.cfg Cenario.calmo "photos/001.jpg"
           "resultados/out_001.jpg" 2
           {[ "battery-level" := "87.5"; "device-timestamp" := "2024-01-01T10:00:00" ]}
           "2024-01-01T12:00:00-03:00" Cenario.w0) as [_ Hput].
  - intros v _ _. reflexivity.
  - exact (proj2 (Hput eq_refl)).
Defined.

(** X5. [salva_dynamo] reads the metadata only at "battery-level" and
    "device-timestamp": two dictionaries that agree on these two keys give
    the same run, whatever else they hold. *)
Theorem salva_dynamo_ignores_other_keys (cfg : Config) (env : Env)
    (imagem_key output_key : string) (n_pessoas : nat)
    (metadados metadados' : gmap string string) (hora : string) (w : World) :
  metadados !! "battery-level" = metadados' !! "battery-level" ->
  metadados !! "device-timestamp" = metadados' !! "device-timestamp" ->
  salva_dynamo cfg env imagem_key output_key n_pessoas metadados hora w =
  salva_dynamo cfg env imagem_key output_key n_pessoas metadados' hora w.
Proof.
  intros Hb Ht. unfold salva_dynamo, monta_item, getitem. by rewrite Hb, Ht.
Qed.

Lemma salva_dynamo_ignores_other_keys_witness :
  salva_dynamo Cenario.cfg Cenario.calmo "a.jpg" "resultados/out_a.jpg" 2
    {[ "battery-level" := "87.5"; "firmware" := "1.2" ]}
    "2024-01-01T12:00:00-03:00" Cenario.w0 =
  salva_dynamo Cenario.cfg Cenario.calmo "a.jpg" "resultados/out_a.jpg" 2
    {[ "battery-level" := "87.5" ]}
    "2024-01-01T12:00:00-03:00" Cenario.w0.
Proof.
  apply (salva_dynamo_ignores_other_keys Cenario.cfg Cenario.calmo "a.jpg"
           "resultados/out_a.jpg" 2
           {[ "battery-level" := "87.5"; "firmware" := "1.2" ]}
           {[ "battery-level" := "87.5" ]}
           "2024-01-01T12:00:00-03:00" Cenario.w0); reflexivity.
Defined.

(** X6. A non-empty "battery-level" that is not a valid decimal makes
    [salva_dynamo] raise before it calls [put_item]: nothing is written,
    nothing is printed, the world is as it was. *)
Theorem salva_dynamo_bad_battery (cfg : Config) (env : Env)
    (imagem_key output_key : string) (n_pessoas : nat)
    (metadados : gmap string string) (hora : string) (w : World) (v : string) :
  metadados !! "battery-level" = Some v ->
  v <> EmptyString ->
  env_decimal_ok env v = false ->
  salva_dynamo cfg env imagem_key output_key n_pessoas metadados hora w =
    (w, Raise (OtherException "InvalidOperation")).
Proof.
  intros Hv Hne Hbad.
  unfold salva_dynamo, monta_item, getitem, Decimal_of_str, bind, raise, ret.
  rewrite Hv, (truthy_Some v Hne), Hbad. reflexivity.
Qed.

Lemma salva_dynamo_bad_battery_witness :
  salva_dynamo Cenario.cfg Cenario.decimal_ruim "a.jpg" "resultados/out_a.jpg" 2
    {[ "battery-level" := "cheia" ]} "2024-01-01T12:00:00-03:00" Cenario.w0 =
    (Cenario.w0, Raise (OtherException "InvalidOperation")).
Proof.
  apply (salva_dynamo_bad_battery Cenario.cfg Cenario.decimal_ruim "a.jpg"
           "resultados/out_a.jpg" 2 {[ "battery-level" := "cheia" ]}
           "2024-01-01T12:00:00-03:00" Cenario.w0 "cheia").
  - reflexivity.
  - discriminate.
  - reflexivity.
Defined.

(** ** processa_imagem: what one run changes *)

Lemma monta_item_campos (env : Env) (imagem_key output_key : string) (n_pessoas : nat)
    (metadados : gmap string string) (hora : string) (w : World) (item : Item) :
  snd (monta_item env imagem_key output_key n_pessoas metadados hora w) = Ok item ->
  imagem item = imagem_key /\ outputKey item = output_key /\
  qtd_pessoas item = Z.of_nat n_pessoas /\ hora_execucao item = hora.
Proof.
  revert item.
  change (wp (monta_item env imagem_key output_key n_pessoas metadados hora)
    (fun _ r => forall item, r = Ok item ->
       imagem item = imagem_key /\ outputKey item = output_key /\
       qtd_pessoas item = Z.of_nat n_pessoas /\ hora_execucao item = hora) w).
  unfold monta_item, getitem, Decimal_of_str. wp_run.
  all: intros item [= <-]; done.
Qed.

(** The rule of [salva_dynamo], with the fixed fields of the item. *)
Lemma wp_salva_dynamo_campos (cfg : Config) (env : Env)
    (imagem_key output_key : string) (n_pessoas : nat)
    (metadados : gmap string string) (hora : string) Q w :
  (forall e, Q w (Raise e)) ->
  (forall item,
     imagem item = imagem_key /\ outputKey item = output_key /\
     qtd_pessoas item = Z.of_nat n_pessoas /\ hora_execucao item = hora ->
     Q (log (EvPrint ("Gravado no DynamoDB: " ++ imagem_key)%string)
            (log (EvPutItem (NOME_TABELA cfg) item None)
                 (set_table (w_table w ++ [item]) w))) (Ok tt)) ->
  (forall item m,
     imagem item = imagem_key /\ outputKey item = output_key /\
     qtd_pessoas item = Z.of_nat n_pessoas /\ hora_execucao item = hora ->
     Q (log (EvPrint ("Falha ao gravar no DynamoDB: " ++ m)%string)
            (log (EvPutItem (NOME_TABELA cfg) item (Some (ClientError m))) w))
       (Raise (ClientError m))) ->
  (forall item m,
     imagem item = imagem_key /\ outputKey item = output_key /\
     qtd_pessoas item = Z.of_nat n_pessoas /\ hora_execucao item = hora ->
     Q (log (EvPutItem (NOME_TABELA cfg) item (Some (OtherException m))) w)
       (Raise (OtherException m))) ->
  wp (salva_dynamo cfg env imagem_key output_key n_pessoas metadados hora) Q w.
Proof.
  intros Hb Hok Hcli Hoth. unfold wp. rewrite salva_dynamo_unfold.
  pose proof (monta_item_campos env imagem_key output_key n_pessoas metadados hora w) as Hc.
  destruct (snd (monta_item env imagem_key output_key n_pessoas metadados hora w))
    as [item|e]; [|apply Hb].
  specialize (Hc item eq_refl).
  destruct (env_put_item env w (NOME_TABELA cfg) item) as [[m|m]|]; cbn [fst snd]; auto.
Qed.

Ltac wp_exec_campos :=
  repeat (cbv beta zeta iota;
          first [wp_prim | apply wp_salva_dynamo_campos; intros | wp_comp]).

(** X7. A run that returns normally has removed its two scratch files and
    no other file: neither scratch name is left in the working directory,
    every other file that was there before the run is still there, and the
    store has gained the output object. *)
Theorem processa_imagem_success_footprint (cfg : Config) (env : Env)
    (k : string) (w : World) :
  snd (processa_imagem cfg env k w) = Ok tt ->
  (local_input_of k ∉ w_fs (fst (processa_imagem cfg env k w))) /\
  (local_output_of k ∉ w_fs (fst (processa_imagem cfg env k w))) /\
  (forall p, p ∈ w_fs w -> p <> local_input_of k -> p <> local_output_of k ->
             p ∈ w_fs (fst (processa_imagem cfg env k w))) /\
  w_s3 (fst (processa_imagem cfg env k w)) =
    {[(BUCKET cfg, output_key_of cfg k)]} ∪ w_s3 w.
Proof.
  change (wp (processa_imagem cfg env k)
    (fun w' r =>
       r = Ok tt ->
       (local_input_of k ∉ w_fs w') /\
       (local_output_of k ∉ w_fs w') /\
       (forall p, p ∈ w_fs w -> p <> local_input_of k -> p <> local_output_of k ->
                  p ∈ w_fs w') /\
       w_s3 w' = {[(BUCKET cfg, output_key_of cfg k)]} ∪ w_s3 w) w).
  unfold_processa. wp_exec.
  all: intros Hr; try discriminate Hr.
  all: world_simpl; split; [set_solver|]; split; [set_solver|]; split;
    [set_solver|reflexivity].
Qed.

Lemma processa_imagem_success_footprint_witness :
  ("a.jpg" ∉ w_fs (fst (processa_imagem Cenario.cfg Cenario.calmo "a.jpg" Cenario.w0))) /\
  ("out_a.jpg" ∉ w_fs (fst (processa_imagem Cenario.cfg Cenario.calmo "a.jpg" Cenario.w0))) /\
  (forall p, p ∈ w_fs Cenario.w0 -> p <> "a.jpg" -> p <> "out_a.jpg" ->
             p ∈ w_fs (fst (processa_imagem Cenario.cfg Cenario.calmo "a.jpg" Cenario.w0))) /\
  w_s3 (fst (processa_imagem Cenario.cfg Cenario.calmo "a.jpg" Cenario.w0)) =
    {[("fotos-esp32", "resultados/out_a.jpg")]} ∪ ∅.
Proof.
  apply (processa_imagem_success_footprint Cenario.cfg Cenario.calmo "a.jpg" Cenario.w0).
  vm_compute. reflexivity.
Defined.

(** X8. When the download fails, the run raises that error right away: the
    trace gains the announcement and the failed download, and the working
    directory, the store and the table are untouched. *)
Theorem processa_imagem_download_failure (cfg : Config) (env : Env)
    (k : string) (w : World) (e : exn) :
  let w1 := log (EvPrint ("Baixando s3://" ++ BUCKET cfg ++ "/" ++ k)%string) w in
  env_download_file env w1 (BUCKET cfg) k (local_input_of k) = Some e ->
  processa_imagem cfg env k w =
    (log (EvDownload (BUCKET cfg) k (local_input_of k) (Some e)) w1, Raise e).
Proof.
  intros w1 Hd. unfold processa_imagem, download_s3, download_file, bind, print.
  fold w1. by rewrite Hd.
Qed.

Lemma processa_imagem_download_failure_witness :
  processa_imagem Cenario.cfg Cenario.download_falha "a.jpg" Cenario.w0 =
    (log (EvDownload "fotos-esp32" "a.jpg" "a.jpg" (Some (ClientError "404")))
       (log (EvPrint "Baixando s3://fotos-esp32/a.jpg") Cenario.w0),
     Raise (ClientError "404")).
Proof.
  apply (processa_imagem_download_failure Cenario.cfg Cenario.download_falha "a.jpg"
           Cenario.w0 (ClientError "404")).
  reflexivity.
Defined.

(** X9. Whatever happens in a run, at most one upload succeeds and at most
    one [put_item] is accepted.  The upload that succeeds is that of the
    output object of this key, which is then the one object that the store
    has gained; without it the store is as before.  An accepted [put_item]
    is for this key and its output key, and there is none unless the upload
    has succeeded. *)
Theorem processa_imagem_uploads_and_writes (cfg : Config) (env : Env)
    (k : string) (w : World) :
  let w' := fst (processa_imagem cfg env k w) in
  let evs := events_since w w' in
  (omap objeto_enviado evs = [] /\ w_s3 w' = w_s3 w /\ omap item_gravado evs = []) \/
  (omap objeto_enviado evs = [(BUCKET cfg, output_key_of cfg k)] /\
   w_s3 w' = {[(BUCKET cfg, output_key_of cfg k)]} ∪ w_s3 w /\
   (omap item_gravado evs = [] \/
    exists item, omap item_gravado evs = [item] /\
                 imagem item = k /\ outputKey item = output_key_of cfg k)).
Proof.
  change (wp (processa_imagem cfg env k)
    (fun w' _ =>
       (omap objeto_enviado (events_since w w') = [] /\ w_s3 w' = w_s3 w /\
        omap item_gravado (events_since w w') = []) \/
       (omap objeto_enviado (events_since w w') = [(BUCKET cfg, output_key_of cfg k)] /\
        w_s3 w' = {[(BUCKET cfg, output_key_of cfg k)]} ∪ w_s3 w /\
        (omap item_gravado (events_since w w') = [] \/
         exists item, omap item_gravado (events_since w w') = [item] /\
                      imagem item = k /\ outputKey item = output_key_of cfg k))) w).
  unfold_processa. wp_exec.
  all: since_norm; world_simpl.
  all: first
    [ left; split; [reflexivity|]; split; reflexivity
    | right; split; [reflexivity|]; split; [reflexivity|]; left; reflexivity
    | right; split; [reflexivity|]; split; [reflexivity|]; right;
      eexists; split; [reflexivity|]; split; assumption ].
Qed.

(** X10. Every item that a run hands to [put_item] is for the key of the
    run, carries its output key, and its count is the number of boxes that
    the detector returned in this same run, which is not negative. *)
Theorem processa_imagem_item_fields (cfg : Config) (env : Env)
    (k : string) (w : World) (t : string) (item : Item) (err : option exn) :
  EvPutItem t item err ∈ events_since w (fst (processa_imagem cfg env k w)) ->
  imagem item = k /\
  outputKey item = output_key_of cfg k /\
  0 <= qtd_pessoas item /\
  exists n,
    EvDetect (NOME_MODELO cfg) (local_input_of k) (Ok n)
      ∈ events_since w (fst (processa_imagem cfg env k w)) /\
    qtd_pessoas item = Z.of_nat n.
Proof.
  change (wp (processa_imagem cfg env k)
    (fun w' _ =>
       EvPutItem t item err ∈ events_since w w' ->
       imagem item = k /\
       outputKey item = output_key_of cfg k /\
       0 <= qtd_pessoas item /\
       exists n,
         EvDetect (NOME_MODELO cfg) (local_input_of k) (Ok n) ∈ events_since w w' /\
         qtd_pessoas item = Z.of_nat n) w).
  unfold_processa. wp_exec_campos.
  all: since_norm; intros Hin; elem_cases Hin; try discriminate.
  all: match goal with H : EvPutItem _ _ _ = EvPutItem _ _ _ |- _ =>
         injection H as -> -> -> end.
  all: match goal with H : _ /\ _ /\ _ /\ _ |- _ => destruct H as (Hi & Ho & Hq & _) end.
  all: split; [exact Hi|]; split; [exact Ho|]; split; [rewrite Hq; lia|].
  all: eexists; split; [|exact Hq].
  all: apply elem_of_cons; right; apply elem_of_cons; right; apply elem_of_cons; left;
       reflexivity.
Qed.

Lemma processa_imagem_item_fields_witness :
  imagem {| imagem := "a.jpg"; outputKey := "resultados/out_a.jpg";
            qtd_pessoas := 2; bateria := None; hora_imagem := None;
            hora_execucao := "2024-01-01T12:00:00-03:00" |} = "a.jpg" /\
  outputKey {| imagem := "a.jpg"; outputKey := "resultados/out_a.jpg";
               qtd_pessoas := 2; bateria := None; hora_imagem := None;
               hora_execucao := "2024-01-01T12:00:00-03:00" |} =
    output_key_of Cenario.cfg "a.jpg" /\
  0 <= 2 /\
  exists n,
    EvDetect "yolov8n.pt" "a.jpg" (Ok n)
      ∈ events_since Cenario.w0
          (fst (processa_imagem Cenario.cfg Cenario.calmo "a.jpg" Cenario.w0)) /\
    2 = Z.of_nat n.
Proof.
  apply (processa_imagem_item_fields Cenario.cfg Cenario.calmo "a.jpg" Cenario.w0
           "yolo-resultados"
           {| imagem := "a.jpg"; outputKey := "resultados/out_a.jpg";
              qtd_pessoas := 2; bateria := None; hora_imagem := None;
              hora_execucao := "2024-01-01T12:00:00-03:00" |} None).
  vm_compute. do 7 apply list_elem_of_further. apply list_elem_of_here.
Defined.

(** X11. When [head_object] fails with an exception that is not a
    [ClientError], the run raises it: no [put_item] is attempted and the
    table is as before, although the output object is already in the store,
    and both scratch files stay in the working directory. *)
Theorem processa_imagem_head_failure (cfg : Config) (env : Env)
    (k : string) (w : World) (m : string) :
  EvHead (BUCKET cfg) k (Raise (OtherException m))
    ∈ events_since w (fst (processa_imagem cfg env k w)) ->
  snd (processa_imagem cfg env k w) = Raise (OtherException m) /\
  put_count (events_since w (fst (processa_imagem cfg env k w))) = 0%nat /\
  w_table (fst (processa_imagem cfg env k w)) = w_table w /\
  (BUCKET cfg, output_key_of cfg k) ∈ w_s3 (fst (processa_imagem cfg env k w)) /\
  local_input_of k ∈ w_fs (fst (processa_imagem cfg env k w)) /\
  local_output_of k ∈ w_fs (fst (processa_imagem cfg env k w)).
Proof.
  change (wp (processa_imagem cfg env k)
    (fun w' r =>
       EvHead (BUCKET cfg) k (Raise (OtherException m)) ∈ events_since w w' ->
       r = Raise (OtherException m) /\
       put_count (events_since w w') = 0%nat /\
       w_table w' = w_table w /\
       (BUCKET cfg, output_key_of cfg k) ∈ w_s3 w' /\
       local_input_of k ∈ w_fs w' /\
       local_output_of k ∈ w_fs w') w).
  unfold_processa. wp_exec.
  all: since_norm; intros Hin; elem_cases Hin; try discriminate.
  all: match goal with H : EvHead _ _ _ = EvHead _ _ _ |- _ => injection H as <- end.
  all: world_simpl; repeat split; try reflexivity; set_solver.
Qed.

Lemma processa_imagem_head_failure_witness :
  snd (processa_imagem Cenario.cfg Cenario.sem_rede "a.jpg" Cenario.w0) =
    Raise (OtherException "EndpointConnectionError") /\
  put_count (events_since Cenario.w0
               (fst (processa_imagem Cenario.cfg Cenario.sem_rede "a.jpg" Cenario.w0))) = 0%nat /\
  w_table (fst (processa_imagem Cenario.cfg Cenario.sem_rede "a.jpg" Cenario.w0)) = [] /\
  ("fotos-esp32", "resultados/out_a.jpg")
    ∈ w_s3 (fst (processa_imagem Cenario.cfg Cenario.sem_rede "a.jpg" Cenario.w0)) /\
  "a.jpg" ∈ w_fs (fst (processa_imagem Cenario.cfg Cenario.sem_rede "a.jpg" Cenario.w0)) /\
  "out_a.jpg" ∈ w_fs (fst (processa_imagem Cenario.cfg Cenario.sem_rede "a.jpg" Cenario.w0)).
Proof.
  apply (processa_imagem_head_failure Cenario.cfg Cenario.sem_rede "a.jpg" Cenario.w0
           "EndpointConnectionError").
  vm_compute. do 6 apply list_elem_of_further. apply list_elem_of_here.
Defined.

(** X12. With the constants read from the environment variables, every call
    of a run goes to the bucket named by BUCKET_NAME, the table named by
    DYNAMO_TABLE and the model named by NOME_MODELO, or to their defaults
    when the variable is not set. *)
Theorem processa_imagem_uses_environ (environ : gmap string string) (env : Env)
    (k : string) (w : World) (ev : Event) :
  ev ∈ events_since w (fst (processa_imagem (config_of_environ environ) env k w)) ->
  usa_configuracao environ ev.
Proof.
  change (wp (processa_imagem (config_of_environ environ) env k)
    (fun w' _ => ev ∈ events_since w w' -> usa_configuracao environ ev) w).
  unfold_processa. wp_exec.
  all: since_norm; intros Hin; elem_cases Hin; exact I || reflexivity.
Qed.

Lemma processa_imagem_uses_environ_witness :
  usa_configuracao {[ "BUCKET_NAME" := "fotos-teste" ]}
    (EvDownload "fotos-teste" "a.jpg" "a.jpg" None).
Proof.
  apply (processa_imagem_uses_environ {[ "BUCKET_NAME" := "fotos-teste" ]}
           Cenario.calmo "a.jpg" Cenario.w0).
  vm_compute. apply list_elem_of_further. apply list_elem_of_here.
Defined.

(** ** main and the script: whole runs *)

(** X13. A failed listing is fatal and nothing else is attempted: [main]
    raises the error of the listing with only the announcement and the
    failed listing in the trace, and the script prints it, as "Erro S3" for
    a [ClientError] and as "Erro" otherwise, and raises it again. *)
Theorem listing_failure_is_fatal (cfg : Config) (env : Env) (w : World) (e : exn) :
  let w_list :=
    log (EvPrint ("Listando imagens em s3://" ++ BUCKET cfg ++ "/" ++ INPUT_PREFIXO cfg)%string) w in
  let w_fail := log (EvPaginate (BUCKET cfg) (INPUT_PREFIXO cfg) (Raise e)) w_list in
  env_paginate env w_list (BUCKET cfg) (INPUT_PREFIXO cfg) = Raise e ->
  main cfg env w = (w_fail, Raise e) /\
  script cfg env w =
    (log (EvPrint ((if is_ClientError e then "Erro S3: " else "Erro: ") ++ str_exn e)%string)
       w_fail, Raise e).
Proof.
  intros w_list w_fail Hpag.
  assert (Hmain : main cfg env w = (w_fail, Raise e)).
  { unfold main, lista_imagens, bind, print, paginate. cbn [fst snd].
    fold w_list. by rewrite Hpag. }
  split; [exact Hmain|].
  unfold script, try_except. rewrite Hmain. cbn [is_Exception].
  by destruct e.
Qed.

Lemma listing_failure_is_fatal_witness :
  script Cenario.cfg Cenario.listagem_falha Cenario.w0 =
    (log (EvPrint "Erro S3: AccessDenied")
       (log (EvPaginate "fotos-esp32" EmptyString (Raise (ClientError "AccessDenied")))
          (log (EvPrint "Listando imagens em s3://fotos-esp32/") Cenario.w0)),
     Raise (ClientError "AccessDenied")).
Proof.
  apply (listing_failure_is_fatal Cenario.cfg Cenario.listagem_falha Cenario.w0
           (ClientError "AccessDenied")).
  reflexivity.
Defined.

Lemma filter_aceita_nil (keys : list string) :
  Forall (fun key => aceita key = false) keys -> List.filter aceita keys = [].
Proof.
  induction 1 as [|key keys Hk _ IH]; [done|]. cbn [List.filter]. by rewrite Hk.
Qed.

(** X14. When the listing holds no key with an accepted extension (no
    objects at all, pages without contents, or only other files), [main]
    prints that no image was found and returns: nothing is downloaded, and
    the working directory, the store and the table are untouched. *)
Theorem main_nothing_to_process (cfg : Config) (env : Env) (w : World)
    (pags : list Page) :
  let w_list :=
    log (EvPrint ("Listando imagens em s3://" ++ BUCKET cfg ++ "/" ++ INPUT_PREFIXO cfg)%string) w in
  let w_loop := log (EvPaginate (BUCKET cfg) (INPUT_PREFIXO cfg) (Ok pags)) w_list in
  env_paginate env w_list (BUCKET cfg) (INPUT_PREFIXO cfg) = Ok pags ->
  Forall (fun key => aceita key = false) (chaves_listadas pags) ->
  main cfg env w =
    (log (EvPrint "Nenhuma imagem encontrada no bucket.") w_loop, Ok tt).
Proof.
  intros w_list w_loop Hpag Hnone.
  rewrite (main_unfold cfg env w pags Hpag).
  by rewrite lista_paginas_filter, (filter_aceita_nil _ Hnone).
Qed.

Lemma main_nothing_to_process_witness :
  main Cenario.cfg Cenario.sem_imagens Cenario.w0 =
    (log (EvPrint "Nenhuma imagem encontrada no bucket.")
       (log (EvPaginate "fotos-esp32" EmptyString
               (Ok [Cenario.pagina ["b.txt"; "fotos/"]; {| Contents := None |}]))
          (log (EvPrint "Listando imagens em s3://fotos-esp32/") Cenario.w0)),
     Ok tt).
Proof.
  apply (main_nothing_to_process Cenario.cfg Cenario.sem_imagens Cenario.w0
           [Cenario.pagina ["b.txt"; "fotos/"]; {| Contents := None |}]).
  - reflexivity.
  - repeat constructor.
Defined.

Section Registros.

Variable cfg : Config.
Variable env : Env.

(** The objects that the runs on [keys] upload when they get that far. *)
Let saidas (keys : list string) : list (string * string) :=
  (fun k => (BUCKET cfg, output_key_of cfg k)) <$> keys.

(** What one run adds to the trace: its accepted writes and its successful
    uploads. *)
Lemma processa_imagem_writes (k : string) (w : World) :
  exists evs,
    w_trace (fst (processa_imagem cfg env k w)) = w_trace w ++ evs /\
    map imagem (omap item_gravado evs) `sublist_of` [k] /\
    omap objeto_enviado evs `sublist_of` saidas [k] /\
    w_s3 w ⊆ w_s3 (fst (processa_imagem cfg env k w)) /\
    w_s3 (fst (processa_imagem cfg env k w)) ⊆ list_to_set (saidas [k]) ∪ w_s3 w.
Proof.
  change (wp (processa_imagem cfg env k)
    (fun w' _ => exists evs,
       w_trace w' = w_trace w ++ evs /\
       map imagem (omap item_gravado evs) `sublist_of` [k] /\
       omap objeto_enviado evs `sublist_of` saidas [k] /\
       w_s3 w ⊆ w_s3 w' /\
       w_s3 w' ⊆ list_to_set (saidas [k]) ∪ w_s3 w) w).
  unfold_processa. wp_exec.
  all: eexists; split; [trace_norm; reflexivity|].
  all: split;
    [ first [ apply sublist_nil_l
            | cbn [omap list_omap item_gravado map];
              by match goal with H : imagem _ = _ |- _ => rewrite H end ] |].
  all: split; [first [apply sublist_nil_l | reflexivity]|].
  all: world_simpl; subst saidas; cbn; split; set_solver.
Qed.

Lemma processa_item_writes (k : string) (w : World) :
  exists evs,
    w_trace (fst (processa_item cfg env k w)) = w_trace w ++ evs /\
    map imagem (omap item_gravado evs) `sublist_of` [k] /\
    omap objeto_enviado evs `sublist_of` saidas [k] /\
    w_s3 w ⊆ w_s3 (fst (processa_item cfg env k w)) /\
    w_s3 (fst (processa_item cfg env k w)) ⊆ list_to_set (saidas [k]) ∪ w_s3 w.
Proof.
  destruct (processa_imagem_writes k w) as (evs & Ht & Hi & Ho & H1 & H2).
  unfold processa_item, try_except, print.
  destruct (processa_imagem cfg env k w) as [w1 [[]|e]]; cbn [fst snd is_Exception] in *.
  - by exists evs.
  - exists (evs ++ [EvPrint ("Erro ao processar " ++ k ++ ": " ++ str_exn e)%string]).
    cbn [w_trace w_s3 log]. rewrite Ht, !omap_app, !app_nil_r. by rewrite app_assoc.
Qed.

Lemma for_each_writes (keys : list string) (w : World) :
  exists evs,
    w_trace (fst (for_each keys (processa_item cfg env) w)) = w_trace w ++ evs /\
    map imagem (omap item_gravado evs) `sublist_of` keys /\
    omap objeto_enviado evs `sublist_of` saidas keys /\
    w_s3 w ⊆ w_s3 (fst (for_each keys (processa_item cfg env) w)) /\
    w_s3 (fst (for_each keys (processa_item cfg env) w)) ⊆ list_to_set (saidas keys) ∪ w_s3 w.
Proof.
  revert w. induction keys as [|k keys IH]; intros w.
  - exists []. cbn [for_each ret fst]. rewrite app_nil_r.
    split; [done|]. split; [done|]. split; [done|]. split; set_solver.
  - destruct (processa_item_writes k w) as (evs0 & Ht0 & Hi0 & Ho0 & Ha0 & Hb0).
    destruct (processa_item_run cfg env k w) as [Hr _].
    assert (Hstep : for_each (k :: keys) (processa_item cfg env) w =
                    for_each keys (processa_item cfg env) (fst (processa_item cfg env k w))).
    { cbn [for_each]. unfold bind.
      destruct (processa_item cfg env k w) as [w1 r1]. cbn [snd] in Hr. by subst r1. }
    rewrite Hstep.
    destruct (IH (fst (processa_item cfg env k w))) as (evs1 & Ht1 & Hi1 & Ho1 & Ha1 & Hb1).
    exists (evs0 ++ evs1). split; [|split; [|split; [|split]]].
    + rewrite Ht1, Ht0. by rewrite app_assoc.
    + rewrite omap_app, map_app. change (k :: keys) with ([k] ++ keys). by apply sublist_app.
    + rewrite omap_app. change (saidas (k :: keys)) with (saidas [k] ++ saidas keys).
      by apply sublist_app.
    + set_solver.
    + subst saidas. cbn in *. set_solver.
Qed.

End Registros.

(** X15. After a successful listing, the [put_item] calls that [main] gets
    accepted are for listed images, in listing order and at most one for
    each listed key, and the uploads that succeed are those of output
    objects of listed images, in listing order and at most one for each
    listed key; [main] removes no object from the store, and every object
    it adds is the output object of a listed image. *)
Theorem main_writes_for_listed_images (cfg : Config) (env : Env) (w : World)
    (pags : list Page) :
  let w_list :=
    log (EvPrint ("Listando imagens em s3://" ++ BUCKET cfg ++ "/" ++ INPUT_PREFIXO cfg)%string) w in
  let imagens := List.filter aceita (chaves_listadas pags) in
  let evs := events_since w (fst (main cfg env w)) in
  env_paginate env w_list (BUCKET cfg) (INPUT_PREFIXO cfg) = Ok pags ->
  map imagem (omap item_gravado evs) `sublist_of` imagens /\
  omap objeto_enviado evs
    `sublist_of` ((fun k => (BUCKET cfg, output_key_of cfg k)) <$> imagens) /\
  w_s3 w ⊆ w_s3 (fst (main cfg env w)) /\
  (forall obj,
     obj ∈ w_s3 (fst (main cfg env w)) -> obj ∉ w_s3 w ->
     exists k, k ∈ imagens /\ obj = (BUCKET cfg, output_key_of cfg k)).
Proof.
  intros w_list imagens evs Hpag. subst evs.
  rewrite (main_unfold cfg env w pags Hpag).
  rewrite lista_paginas_filter. cbn [app]. fold imagens.
  match goal with |- context [for_each imagens ?b ?x] =>
    destruct (for_each_writes cfg env imagens x) as (evs & Ht & Hi & Ho & Ha & Hb);
    set (w_loop := x) in *
  end.
  destruct imagens as [|k0 ks] eqn:Himg.
  - cbn [fst w_s3 log]. subst w_loop w_list. since_norm.
    split; [done|]. split; [done|]. split; [done|]. intros obj Hin Hnot. done.
  - assert (Hsince : events_since w (fst (for_each (k0 :: ks) (processa_item cfg env) w_loop))
                     = [EvPrint ("Listando imagens em s3://" ++ BUCKET cfg ++ "/" ++
                                 INPUT_PREFIXO cfg)%string;
                        EvPaginate (BUCKET cfg) (INPUT_PREFIXO cfg) (Ok pags)] ++ evs).
    { apply events_since_app. rewrite Ht. subst w_loop w_list. trace_norm. reflexivity. }
    rewrite Hsince, !omap_app. cbn [omap list_omap item_gravado objeto_enviado app].
    split; [exact Hi|]. split; [exact Ho|]. split; [exact Ha|].
    intros obj Hin Hnot. apply Hb in Hin. apply elem_of_union in Hin as [Hin|Hin]; [|done].
    apply elem_of_list_to_set, list_elem_of_fmap in Hin as (k & -> & Hk). by exists k.
Qed.

(** Of a.jpg, ruim.jpg and c.png the second fails in the detector: the
    accepted writes are those of a.jpg and c.png. *)
Lemma main_writes_for_listed_images_witness :
  map imagem
    (omap item_gravado
       (events_since Cenario.w0 (fst (main Cenario.cfg Cenario.detector_falha Cenario.w0))))
    `sublist_of` ["a.jpg"; "ruim.jpg"; "c.png"].
Proof.
  apply (main_writes_for_listed_images Cenario.cfg Cenario.detector_falha Cenario.w0
           [Cenario.pagina ["a.jpg"; "ruim.jpg"; "c.png"]]).
  reflexivity.
Defined.

(** X16. Once the listing has succeeded the script ends normally, whatever
    happens to the items: no error of an item reaches the handlers of the
    [__main__] block. *)
Theorem script_survives_item_failures (cfg : Config) (env : Env) (w : World)
    (pags : list Page) :
  env_paginate env
    (log (EvPrint ("Listando imagens em s3://" ++ BUCKET cfg ++ "/" ++ INPUT_PREFIXO cfg)%string) w)
    (BUCKET cfg) (INPUT_PREFIXO cfg) = Ok pags ->
  script cfg env w = (fst (main cfg env w), Ok tt).
Proof.
  intros Hpag. unfold script, try_except.
  assert (Hr : snd (main cfg env w) = Ok tt).
  { rewrite (main_unfold cfg env w pags Hpag).
    destruct (fold_left lista_pagina pags []) as [|k ks]; [done|].
    match goal with |- context [for_each ?l ?b ?x] =>
      by destruct (for_each_processa_item_run cfg env l x) as [Hr _]
    end. }
  destruct (main cfg env w) as [w1 r1]. cbn [fst snd] in *. by subst r1.
Qed.

Lemma script_survives_item_failures_witness :
  script Cenario.cfg Cenario.detector_falha Cenario.w0 =
    (fst (main Cenario.cfg Cenario.detector_falha Cenario.w0), Ok tt).
Proof.
  apply (script_survives_item_failures Cenario.cfg Cenario.detector_falha Cenario.w0
           [Cenario.pagina ["a.jpg"; "ruim.jpg"; "c.png"]]).
  reflexivity.
Defined.

(** ** processa_imagem: from the metadata to the item, and the order of steps *)

Lemma monta_item_opcionais (env : Env) (imagem_key output_key : string) (n_pessoas : nat)
    (metadados : gmap string string) (hora : string) (w : World) (item : Item) :
  snd (monta_item env imagem_key output_key n_pessoas metadados hora w) = Ok item ->
  bateria item = (if truthy (metadados !! "battery-level")
                  then Dec <$> metadados !! "battery-level" else None) /\
  hora_imagem item = (if truthy (metadados !! "device-timestamp")
                      then metadados !! "device-timestamp" else None).
Proof.
  unfold monta_item, getitem, Decimal_of_str, bind, ret, raise.
  destruct (metadados !! "battery-level") as [v|];
    destruct (metadados !! "device-timestamp") as [t|];
    cbn [truthy]; try destruct v as [|c v]; try destruct t as [|c' t];
    cbn [String.eqb negb fmap option_fmap option_map];
    try match goal with |- context [env_decimal_ok env ?x] =>
          destruct (env_decimal_ok env x) end;
    cbn [snd]; intros [= <-]; done.
Qed.

(** The rule of [salva_dynamo], with the optional fields of the item. *)
Lemma wp_salva_dynamo_opcionais (cfg : Config) (env : Env)
    (imagem_key output_key : string) (n_pessoas : nat)
    (metadados : gmap string string) (hora : string) Q w :
  let opcionais item :=
    bateria item = (if truthy (metadados !! "battery-level")
                    then Dec <$> metadados !! "battery-level" else None) /\
    hora_imagem item = (if truthy (metadados !! "device-timestamp")
                        then metadados !! "device-timestamp" else None) in
  (forall e, Q w (Raise e)) ->
  (forall item, opcionais item ->
     Q (log (EvPrint ("Gravado no DynamoDB: " ++ imagem_key)%string)
            (log (EvPutItem (NOME_TABELA cfg) item None)
                 (set_table (w_table w ++ [item]) w))) (Ok tt)) ->
  (forall item m, opcionais item ->
     Q (log (EvPrint ("Falha ao gravar no DynamoDB: " ++ m)%string)
            (log (EvPutItem (NOME_TABELA cfg) item (Some (ClientError m))) w))
       (Raise (ClientError m))) ->
  (forall item m, opcionais item ->
     Q (log (EvPutItem (NOME_TABELA cfg) item (Some (OtherException m))) w)
       (Raise (OtherException m))) ->
  wp (salva_dynamo cfg env imagem_key output_key n_pessoas metadados hora) Q w.
Proof.
  intros opcionais Hb Hok Hcli Hoth. unfold wp. rewrite salva_dynamo_unfold.
  pose proof (monta_item_opcionais env imagem_key output_key n_pessoas metadados hora w) as Hc.
  destruct (snd (monta_item env imagem_key output_key n_pessoas metadados hora w))
    as [item|e]; [|apply Hb].
  specialize (Hc item eq_refl).
  destruct (env_put_item env w (NOME_TABELA cfg) item) as [[m|m]|]; cbn [fst snd]; auto.
Qed.

(** X17. The optional fields of the item that a run hands to [put_item]
    come from the answer of [head_object] in this same run: a non-empty
    "battery-level" as a decimal, a non-empty "device-timestamp" as it is,
    and nothing for a key that is missing or empty, for an answer without
    metadata, or after a [ClientError] of [head_object]. *)
Theorem processa_imagem_item_metadata (cfg : Config) (env : Env)
    (k : string) (w : World) (t : string) (item : Item) (err : option exn) :
  let evs := events_since w (fst (processa_imagem cfg env k w)) in
  EvPutItem t item err ∈ evs ->
  (forall h, EvHead (BUCKET cfg) k (Ok h) ∈ evs ->
     let metadados := default ∅ (Metadata h) in
     bateria item = (if truthy (metadados !! "battery-level")
                     then Dec <$> metadados !! "battery-level" else None) /\
     hora_imagem item = (if truthy (metadados !! "device-timestamp")
                         then metadados !! "device-timestamp" else None)) /\
  (forall m, EvHead (BUCKET cfg) k (Raise (ClientError m)) ∈ evs ->
     bateria item = None /\ hora_imagem item = None).
Proof.
  cbv zeta.
  change (wp (processa_imagem cfg env k)
    (fun w' _ =>
       EvPutItem t item err ∈ events_since w w' ->
       (forall h, EvHead (BUCKET cfg) k (Ok h) ∈ events_since w w' ->
          bateria item =
            (if truthy (default ∅ (Metadata h) !! "battery-level")
             then Dec <$> default ∅ (Metadata h) !! "battery-level" else None) /\
          hora_imagem item =
            (if truthy (default ∅ (Metadata h) !! "device-timestamp")
             then default ∅ (Metadata h) !! "device-timestamp" else None)) /\
       (forall m, EvHead (BUCKET cfg) k (Raise (ClientError m)) ∈ events_since w w' ->
          bateria item = None /\ hora_imagem item = None)) w).
  unfold_processa.
  repeat (cbv beta zeta iota;
          first [wp_prim | apply wp_salva_dynamo_opcionais; cbv zeta; intros | wp_comp]).
  all: since_norm; intros Hin; elem_cases Hin; try discriminate.
  all: match goal with H : EvPutItem _ _ _ = EvPutItem _ _ _ |- _ =>
         injection H as -> -> -> end.
  all: split; [intros h' Hh|intros m' Hh]; elem_cases Hh; try discriminate.
  all: match goal with H : EvHead _ _ _ = EvHead _ _ _ |- _ => injection H as -> end.
  all: match goal with H : _ /\ _ |- _ => exact H end.
Qed.

Lemma processa_imagem_item_metadata_witness :
  let metadados : gmap string string :=
    {[ "battery-level" := "87.5"; "device-timestamp" := "2024-01-01T10:00:00" ]} in
  let item :=
    {| imagem := "photos/001.jpg"; outputKey := "resultados/out_001.jpg";
       qtd_pessoas := 2; bateria := Some (Dec "87.5");
       hora_imagem := Some "2024-01-01T10:00:00";
       hora_execucao := "2024-01-01T12:00:00-03:00" |} in
  bateria item = (if truthy (metadados !! "battery-level")
                  then Dec <$> metadados !! "battery-level" else None) /\
  hora_imagem item = (if truthy (metadados !! "device-timestamp")
                      then metadados !! "device-timestamp" else None).
Proof.
  intros metadados item.
  destruct (processa_imagem_item_metadata Cenario.cfg Cenario.com_metadados
              "photos/001.jpg" Cenario.w0 "yolo-resultados" item None) as [Hok _].
  - vm_compute. do 7 apply list_elem_of_further. apply list_elem_of_here.
  - apply (Hok {| Metadata := Some metadados |}).
    vm_compute. do 6 apply list_elem_of_further. apply list_elem_of_here.
Defined.

(** X18. The service and file-system calls of a run always follow the order
    download, detection, write of the annotated picture, upload, head,
    record write, removal of the input, removal of the output: the calls of
    any run are an initial part of this sequence, and a run that returns
    normally has made all of them. *)
Theorem processa_imagem_steps_in_order (cfg : Config) (env : Env)
    (k : string) (w : World) :
  let evs := events_since w (fst (processa_imagem cfg env k w)) in
  omap passo evs `prefix_of` passos_completos /\
  (snd (processa_imagem cfg env k w) = Ok tt -> omap passo evs = passos_completos).
Proof.
  cbv zeta.
  change (wp (processa_imagem cfg env k)
    (fun w' r =>
       omap passo (events_since w w') `prefix_of` passos_completos /\
       (r = Ok tt -> omap passo (events_since w w') = passos_completos)) w).
  unfold_processa. wp_exec.
  all: since_norm; split; [by eexists|].
  all: intros Hr; try discriminate Hr; reflexivity.
Qed.

Lemma processa_imagem_steps_in_order_witness :
  omap passo (events_since Cenario.w0
                (fst (processa_imagem Cenario.cfg Cenario.calmo "a.jpg" Cenario.w0))) =
  passos_completos.
Proof.
  apply (processa_imagem_steps_in_order Cenario.cfg Cenario.calmo "a.jpg" Cenario.w0).
  vm_compute. reflexivity.
Defined.

(** ** lista_imagens: pages *)

(** X19. The result of [lista_imagens] does not depend on how the listing is
    cut into pages: two successful listings with the same keys in the same
    order give the same images, and a page without contents adds nothing. *)
Theorem lista_imagens_ignores_paging (env env' : Env) (bucket prefix : string)
    (w w' : World) (pags pags' : list Page) :
  env_paginate env w bucket prefix = Ok pags ->
  env_paginate env' w' bucket prefix = Ok pags' ->
  chaves_listadas pags = chaves_listadas pags' ->
  snd (lista_imagens env bucket prefix w) = snd (lista_imagens env' bucket prefix w') /\
  chaves_listadas ({| Contents := None |} :: pags) = chaves_listadas pags.
Proof.
  intros Hp Hp' Hkeys. split; [|reflexivity].
  unfold lista_imagens, bind, paginate, ret. rewrite Hp, Hp'. cbn [fst snd].
  by rewrite !lista_paginas_filter, Hkeys.
Qed.

Lemma lista_imagens_ignores_paging_witness :
  snd (lista_imagens Cenario.calmo "fotos-esp32" EmptyString Cenario.w0) =
  snd (lista_imagens
         (Cenario.ambiente
            [Cenario.pagina ["a.jpg"]; {| Contents := None |}; Cenario.pagina ["b.txt"; "c.PNG"]]
            Cenario.duas_pessoas Cenario.sem_metadados None)
         "fotos-esp32" EmptyString Cenario.w0).
Proof.
  apply (lista_imagens_ignores_paging Cenario.calmo
           (Cenario.ambiente
              [Cenario.pagina ["a.jpg"]; {| Contents := None |};
               Cenario.pagina ["b.txt"; "c.PNG"]]
              Cenario.duas_pessoas Cenario.sem_metadados None)
           "fotos-esp32" EmptyString Cenario.w0 Cenario.w0
           [Cenario.pagina ["a.jpg"; "b.txt"; "c.PNG"]]
           [Cenario.pagina ["a.jpg"]; {| Contents := None |};
            Cenario.pagina ["b.txt"; "c.PNG"]]); reflexivity.
Defined.
